(** * Sabre todo backend: the task router over a Mongoose collection

    Shallow embedding of [src/routes/tasks.ts] (the router that
    [src/server.ts] mounts under [/api/todos]) and of the schema of
    [src/models/Task.ts].

    The five handlers are translated statement by statement.  Each of them
    awaits exactly one call of the Mongoose model [Task]; Mongoose and
    MongoDB are third-party code, so the calls the handlers make
    ([new Task], [save], [find], [findByIdAndUpdate], [findByIdAndDelete])
    are modelled here from the schema the repository declares and from the
    documented behaviour of Mongoose 7/8:

    - the collection is a finite map from [_id] to the stored fields
      (MongoDB keeps [_id] unique);
    - a value is cast to the schema type of its path before it is stored,
      and a value that cannot be cast raises a [CastError];
    - validators ([required]) run on [save] and do not run on
      [findByIdAndUpdate] (no [runValidators] option is passed);
    - keys of an update whose value is [undefined] are dropped from the
      update;
    - any call may fail for a reason outside the program (connection lost,
      server error): the environment of a request says whether it does. *)

From Stdlib Require Import NArith ZArith String Ascii Bool Lia.
From stdpp Require Import base option list gmap strings fin_maps.

Set Warnings "-register-all".

Local Open Scope string_scope.
Local Open Scope Z_scope.

(** ** JSON values, as [express.json()] and the query parser deliver them *)

(** A number is carried by the text [Number.prototype.toString] gives it:
    that text is all the casts below look at. *)
Inductive json : Type :=
| JNull
| JBool (b : bool)
| JNum (repr : string)
| JStr (s : string)
| JArr (items : list json)
| JObj (members : list (string * json)).

(** [JSON.parse] keeps the last member of a repeated key. *)
Fixpoint member (k : string) (ms : list (string * json)) : option json :=
  match ms with
  | [] => None
  | (k', v) :: ms' =>
      match member k ms' with
      | Some w => Some w
      | None => if String.eqb k k' then Some v else None
      end
  end.

(** Property read [v.k] for the keys the program reads ([text],
    [completed], [_id]): [None] is [undefined]. *)
Definition get_prop (v : json) (k : string) : option json :=
  match v with
  | JObj ms => member k ms
  | _ => None
  end.

(** ** Exceptions and the handler monad *)

Inductive exn : Type :=
| TypeError (what : string)
| CastError (path : string)
| ValidationError (path : string)
| DuplicateKeyError
| StoreFailure (cause : string).

Inductive result (A : Type) : Type :=
| Ok (a : A)
| Throw (e : exn).
Arguments Ok {A} a.
Arguments Throw {A} e.

(** [_id] is a 12-byte ObjectId, kept as the number its 24 hex digits
    spell. *)
Definition ObjectId : Type := N.

(** The stored fields of a task document.  The interface [ITask] types
    them [string] and [boolean]; the types are erased when the program
    runs and the store holds what it is given, so each field is the value
    or BSON null ([None]).  The version key [__v] Mongoose adds is 0 in
    every document and is left out. *)
Record ITask : Type := mkTask {
  text : option string;
  completed : option bool
}.

(** A task as a response shows it: [_id] with the fields. *)
Definition Task : Type := (ObjectId * ITask)%type.

Abbreviation Collection := (gmap ObjectId ITask).

(** A computation reads and writes the collection and may throw; the
    collection survives a throw. *)
Definition M (A : Type) : Type := Collection → result A * Collection.

Definition ret {A} (a : A) : M A := λ c, (Ok a, c).

Definition throw {A} (e : exn) : M A := λ c, (Throw e, c).

Definition bind {A B} (m : M A) (k : A → M B) : M B :=
  λ c, match m c with
       | (Ok a, c') => k a c'
       | (Throw e, c') => (Throw e, c')
       end.

(** [try { body } catch (error) { handler }] *)
Definition try_catch {A} (body : M A) (handler : exn → M A) : M A :=
  λ c, match body c with
       | (Ok a, c') => (Ok a, c')
       | (Throw e, c') => handler e c'
       end.

Notation "'let!' x := m 'in' k" := (bind m (λ x, k))
  (at level 10, x name, m at level 100, k at level 200, only parsing).

(** ** What a request finds outside the program *)

(** [fault = Some cause]: the store call of this request fails for the
    cause given.  [generated_id]: the ObjectId the driver generates for a
    document constructed during this request. *)
Record Env : Type := mkEnv {
  fault : option string;
  generated_id : ObjectId
}.

(** ** Mongoose casts *)

Inductive cast (A : Type) : Type :=
| Undef
| Null
| Val (a : A)
| CastFail.
Arguments Undef {A}.
Arguments Null {A}.
Arguments Val {A} a.
Arguments CastFail {A}.

Definition nonempty (s : string) : bool :=
  match s with
  | EmptyString => false
  | String _ _ => true
  end.

(** [castString]: null and undefined pass; an object with a string [_id]
    gives that [_id]; whatever has a [toString] of its own, arrays apart,
    gives its text; the rest fails. *)
Definition castString (v : option json) : cast string :=
  match v with
  | None => Undef
  | Some JNull => Null
  | Some (JStr s) => Val s
  | Some (JNum r) => Val r
  | Some (JBool b) => Val (if b then "true" else "false")
  | Some (JArr _) => CastFail
  | Some (JObj ms) =>
      match member "_id" ms with
      | Some (JStr s) => if nonempty s then Val s else CastFail
      | _ => CastFail
      end
  end.

(** [castBoolean]: [true, 'true', 1, '1', 'yes'] are true,
    [false, 'false', 0, '0', 'no'] are false, null and undefined pass. *)
Definition castBoolean (v : option json) : cast bool :=
  match v with
  | None => Undef
  | Some JNull => Null
  | Some (JBool b) => Val b
  | Some (JStr s) =>
      if String.eqb s "true" || String.eqb s "1" || String.eqb s "yes" then Val true
      else if String.eqb s "false" || String.eqb s "0" || String.eqb s "no" then Val false
      else CastFail
  | Some (JNum r) =>
      if String.eqb r "1" then Val true
      else if String.eqb r "0" then Val false
      else CastFail
  | Some (JArr _) => CastFail
  | Some (JObj _) => CastFail
  end.

Definition hex_digit (c : ascii) : option N :=
  let n := N_of_ascii c in
  if (48 <=? n)%N && (n <=? 57)%N then Some (n - 48)%N
  else if (97 <=? n)%N && (n <=? 102)%N then Some (n - 87)%N
  else if (65 <=? n)%N && (n <=? 70)%N then Some (n - 55)%N
  else None.

Fixpoint parse_hex (acc : N) (s : string) : option N :=
  match s with
  | EmptyString => Some acc
  | String c s' =>
      match hex_digit c with
      | Some d => parse_hex (16 * acc + d)%N s'
      | None => None
      end
  end.

(** A string casts to an ObjectId when it is 24 hex digits. *)
Definition castObjectId (id : string) : option ObjectId :=
  if (String.length id =? 24)%nat then parse_hex 0%N id else None.

(** ** The model [Task] of src/models/Task.ts

    [TaskSchema]: [text] is a [String] with [required: true]; [completed]
    is a [Boolean] with [default: false]. *)

(** A document under construction, before [save]. *)
Record Document : Type := mkDocument {
  doc_id : ObjectId;
  doc_text : cast string;
  doc_completed : bool
}.

(** [new Task({ text })]: the driver's fresh [_id], [text] cast to a
    string, [completed] at its default. *)
Definition new_Task (env : Env) (text : option json) : Document :=
  {| doc_id := generated_id env;
     doc_text := castString text;
     doc_completed := false |}.

(** What [res.json] serialises of a document. *)
Definition toJSON (d : Document) : Task :=
  (doc_id d,
   {| text := match doc_text d with Val s => Some s | _ => None end;
      completed := Some (doc_completed d) |}).

(** The [required] validator of a [String] path: a string of non-zero
    length. *)
Definition checkRequired (t : cast string) : bool :=
  match t with
  | Val s => nonempty s
  | _ => false
  end.

(** [task.save()]: validation first (a failed cast is a validation
    error), then the insert, which the unique index on [_id] can refuse. *)
Definition save (env : Env) (d : Document) : M unit :=
  λ c,
    if checkRequired (doc_text d) then
      match fault env with
      | Some cause => (Throw (StoreFailure cause), c)
      | None =>
          match c !! doc_id d with
          | Some _ => (Throw DuplicateKeyError, c)
          | None => (Ok (), <[doc_id d := snd (toJSON d)]> c)
          end
      end
    else (Throw (ValidationError "text"), c).

(** The filters the router builds: [{}] and [{ completed: b }]. *)
Inductive FilterQuery : Type :=
| FEmpty
| FCompleted (b : bool).

(** Equality match of MongoDB: null equals neither true nor false. *)
Definition matches (q : FilterQuery) (t : ITask) : bool :=
  match q with
  | FEmpty => true
  | FCompleted b =>
      match completed t with
      | Some b' => Bool.eqb b' b
      | None => false
      end
  end.

(** [Task.find(filter)]: the matching documents.  No handler sorts, and
    the order in which the store returns them is not part of any
    statement below. *)
Definition find (env : Env) (q : FilterQuery) : M (list Task) :=
  λ c,
    match fault env with
    | Some cause => (Throw (StoreFailure cause), c)
    | None => (Ok (map_to_list (filter (λ kv, matches q (snd kv) = true) c)), c)
    end.

(** The object literal [{ text, completed }] of the update handler. *)
Record TaskUpdate : Type := mkUpdate {
  upd_text : option json;
  upd_completed : option json
}.

(** [$set] of one path: an undefined key is dropped, null is stored as
    null. *)
Definition set_path {A} (new : cast A) (old : option A) : option A :=
  match new with
  | Undef => old
  | Null => None
  | Val a => Some a
  | CastFail => old
  end.

Definition apply_update (ct : cast string) (cc : cast bool) (t : ITask) : ITask :=
  {| text := set_path ct (text t);
     completed := set_path cc (completed t) |}.

Definition is_fail {A} (x : cast A) : bool :=
  match x with
  | CastFail => true
  | _ => false
  end.

(** [Task.findByIdAndUpdate(id, update, { new: true })]: the id and the
    update are cast, then the document is found and changed in one step;
    the result is the document after the change, or null. *)
Definition findByIdAndUpdate (env : Env) (id : string) (u : TaskUpdate)
  : M (option Task) :=
  λ c,
    match castObjectId id with
    | None => (Throw (CastError "_id"), c)
    | Some oid =>
        let ct := castString (upd_text u) in
        let cc := castBoolean (upd_completed u) in
        if is_fail ct then (Throw (CastError "text"), c)
        else if is_fail cc then (Throw (CastError "completed"), c)
        else
          match fault env with
          | Some cause => (Throw (StoreFailure cause), c)
          | None =>
              match c !! oid with
              | None => (Ok None, c)
              | Some t =>
                  let t' := apply_update ct cc t in
                  (Ok (Some (oid, t')), <[oid := t']> c)
              end
          end
    end.

(** [Task.findByIdAndDelete(id)]: the removed document, or null. *)
Definition findByIdAndDelete (env : Env) (id : string) : M (option Task) :=
  λ c,
    match castObjectId id with
    | None => (Throw (CastError "_id"), c)
    | Some oid =>
        match fault env with
        | Some cause => (Throw (StoreFailure cause), c)
        | None =>
            match c !! oid with
            | None => (Ok None, c)
            | Some t => (Ok (Some (oid, t)), delete oid c)
            end
        end
    end.

(** ** Requests and responses *)

(** The bodies [res.json] is given. *)
Inductive Payload : Type :=
| TaskEnvelope (response : Task) (status : Z) (msg : string)
| TasksEnvelope (response : list Task) (status : Z) (msg : string)
| ErrorBody (error : string)
| BareTasks (tasks : list Task).

Record Response : Type := mkResponse {
  res_status : Z;
  res_body : Payload
}.

(** [res.status(code).json(body)] *)
Definition status_json (code : Z) (body : Payload) : M Response :=
  ret {| res_status := code; res_body := body |}.

(** [const { k } = req.body]: reading a property of undefined or null
    throws. *)
Definition destructure (body : option json) (k : string) : M (option json) :=
  match body with
  | None => throw (TypeError "Cannot destructure property of undefined")
  | Some JNull => throw (TypeError "Cannot destructure property of null")
  | Some v => ret (get_prop v k)
  end.

(** [status === "active"] for a query value (string, array or object of
    the query parser, or undefined). *)
Definition strict_eq_str (v : option json) (s : string) : bool :=
  match v with
  | Some (JStr s') => String.eqb s' s
  | _ => false
  end.

(** ** The router of src/routes/tasks.ts

    Every handler is one [try] block and one [catch] block; the [try]
    blocks are named apart so that statements can speak of what they
    throw. *)

(** Lines 24-31: the [try] block of [router.post("/")]. *)
Definition post_try (env : Env) (body : option json) : M Response :=
  let! text := destructure body "text" in
  let task := new_Task env text in
  let! _ := save env task in
  status_json 201 (TaskEnvelope (toJSON task) 201 "Todo Created").

(** [router.post("/")], lines 22-35 *)
Definition router_post (env : Env) (body : option json) : M Response :=
  try_catch (post_try env body)
    (λ _, status_json 500 (ErrorBody "Failed to create todo")).

(** The filter of [router.get("/")], lines 80-86: [let filter = {}] and
    the two assignments. *)
Definition list_filter (status : option json) : FilterQuery :=
  let filter := FEmpty in
  if strict_eq_str status "active" then FCompleted false
  else if strict_eq_str status "completed" then FCompleted true
  else filter.

(** Lines 79-95: the [try] block of [router.get("/")]. *)
Definition get_try (env : Env) (status : option json) : M Response :=
  let filter := list_filter status in
  let! tasks := find env filter in
  status_json 200 (TasksEnvelope tasks 200 "success").

(** [router.get("/")], lines 77-99 *)
Definition router_get (env : Env) (status : option json) : M Response :=
  try_catch (get_try env status)
    (λ _, status_json 500 (ErrorBody "Failed to fetch todos")).

(** The conditional expression of [router.get("/filter")], lines
    130-135. *)
Definition filter_filter (status : option json) : FilterQuery :=
  if strict_eq_str status "active" then FCompleted false
  else (if strict_eq_str status "completed" then FCompleted true
        else FEmpty).

(** Lines 129-141: the [try] block of [router.get("/filter")]. *)
Definition get_filter_try (env : Env) (status : option json) : M Response :=
  let filter := filter_filter status in
  let! tasks := find env filter in
  status_json 200 (TasksEnvelope tasks 200 "success").

(** [router.get("/filter")], lines 127-145 *)
Definition router_get_filter (env : Env) (status : option json) : M Response :=
  try_catch (get_filter_try env status)
    (λ _, status_json 500 (ErrorBody "Failed to filter todos")).

(** Lines 172-187: the [try] block of [router.put("/:id")]. *)
Definition put_try (env : Env) (id : string) (body : option json) : M Response :=
  let! text := destructure body "text" in
  let! completed := destructure body "completed" in
  let! task := findByIdAndUpdate env id
                 {| upd_text := text; upd_completed := completed |} in
  match task with
  | None => status_json 404 (ErrorBody "Todo not found")
  | Some t => status_json 200 (TaskEnvelope t 200 "Todo Updated")
  end.

(** [router.put("/:id")], lines 170-191 *)
Definition router_put (env : Env) (id : string) (body : option json) : M Response :=
  try_catch (put_try env id body)
    (λ _, status_json 500 (ErrorBody "Failed to update todo")).

(** Lines 212-222: the [try] block of [router.delete("/:id")]. *)
Definition delete_try (env : Env) (id : string) : M Response :=
  let! task := findByIdAndDelete env id in
  match task with
  | None => status_json 404 (ErrorBody "Todo not found")
  | Some t => status_json 200 (TaskEnvelope t 200 "Todo deleted successfully")
  end.

(** [router.delete("/:id")], lines 210-226 *)
Definition router_delete (env : Env) (id : string) : M Response :=
  try_catch (delete_try env id)
    (λ _, status_json 500 (ErrorBody "Failed to delete todo")).

(** ** Requests, dispatch and reachable states *)

Inductive Request : Type :=
| Create (body : option json)
| List (status : option json)
| Filter (status : option json)
| Update (id : string) (body : option json)
| Delete (id : string).

Definition try_block (env : Env) (r : Request) : M Response :=
  match r with
  | Create body => post_try env body
  | List status => get_try env status
  | Filter status => get_filter_try env status
  | Update id body => put_try env id body
  | Delete id => delete_try env id
  end.

Definition handle (env : Env) (r : Request) : M Response :=
  match r with
  | Create body => router_post env body
  | List status => router_get env status
  | Filter status => router_get_filter env status
  | Update id body => router_put env id body
  | Delete id => router_delete env id
  end.

(** The text of the [catch] block of each handler. *)
Definition failure_message (r : Request) : string :=
  match r with
  | Create _ => "Failed to create todo"
  | List _ => "Failed to fetch todos"
  | Filter _ => "Failed to filter todos"
  | Update _ _ => "Failed to update todo"
  | Delete _ => "Failed to delete todo"
  end.

Definition generic_500 (r : Request) : Response :=
  {| res_status := 500; res_body := ErrorBody (failure_message r) |}.

(** The collections the server can be in: it starts empty and every
    request, in any environment, leaves the next one. *)
Inductive reachable : Collection → Prop :=
| reach_empty : reachable ∅
| reach_step env r c : reachable c → reachable (snd (handle env r c)).

(** ** Observations on responses *)

Definition status_of (o : result Response) : option Z :=
  match o with
  | Ok r => Some (res_status r)
  | Throw _ => None
  end.

(** The task set a response carries, if it carries one. *)
Definition result_set (o : result Response) : option (list Task) :=
  match o with
  | Ok {| res_body := TasksEnvelope ts _ _ |} => Some ts
  | Ok {| res_body := BareTasks ts |} => Some ts
  | _ => None
  end.

(** The field [k] of a request body, undefined when there is no body. *)
Definition body_prop (body : option json) (k : string) : option json :=
  match body with
  | Some v => get_prop v k
  | None => None
  end.

(** The data-model invariant of a stored task: [text] and [completed] are
    not null.  ([_id] is the key of the collection and is never null.) *)
Definition task_ok (t : ITask) : Prop :=
  text t ≠ None ∧ completed t ≠ None.

Definition collection_ok (c : Collection) : Prop :=
  map_Forall (λ _ t, task_ok t) c.

(** Every stored task is active or completed. *)
Definition all_boolean (c : Collection) : Prop :=
  map_Forall (λ _ t, completed t ≠ None) c.

(** ** The variant of the router kept after src/models/Task.ts

    The text that follows the model in that file is an earlier router: its
    [GET /] calls [Task.find()] without reading [status] and its responses
    are bare arrays.  [src/server.ts] mounts [./routes/tasks], so this
    variant serves no request; it is kept here for comparison only. *)
Module Legacy.

(** [router.get("/")], lines 93-100 of the variant *)
Definition router_get (env : Env) (_req : option json) : M Response :=
  try_catch
    (let! tasks := find env FEmpty in
     status_json 200 (BareTasks tasks))
    (λ _, status_json 500 (ErrorBody "Failed to fetch tasks")).

(** [router.get("/filter")], lines 128-142 of the variant *)
Definition router_get_filter (env : Env) (status : option json) : M Response :=
  try_catch
    (let filter := filter_filter status in
     let! tasks := find env filter in
     status_json 200 (BareTasks tasks))
    (λ _, status_json 500 (ErrorBody "Failed to filter tasks")).

End Legacy.

(** ** Concrete environments and states used by the examples *)

(** A request served while the store is up; [oid] is the id the driver
    would generate. *)
Definition env_up (oid : ObjectId) : Env :=
  {| fault := None; generated_id := oid |}.

(** A request served while the store cannot be reached. *)
Definition env_down : Env :=
  {| fault := Some "connect ECONNREFUSED 127.0.0.1:27017"; generated_id := 9%N |}.

Definition id5 : string := "000000000000000000000005".

Definition milk : ITask := {| text := Some "buy milk"; completed := Some false |}.

(** The collection after [POST / {text: "buy milk"}] on an empty store. *)
Definition c_milk : Collection := {[ 5%N := milk ]}.

(** The task sets [GET /?status=...] answers with (empty on an error). *)
Definition listed (env : Env) (status : option json) (c : Collection) : list Task :=
  default [] (result_set (fst (router_get env status c))).

(** A task whose [completed] is null, and the collection holding it. *)
Definition milk_null : ITask := {| text := Some "buy milk"; completed := None |}.

Definition c_null : Collection := {[ 5%N := milk_null ]}.

Definition id6 : string := "000000000000000000000006".

(** A task whose [text] is null, and the collection holding it. *)
Definition no_text : ITask := {| text := None; completed := Some false |}.

Definition c_no_text : Collection := {[ 5%N := no_text ]}.

(** The task "buy milk" once completed. *)
Definition milk_done : ITask := {| text := Some "buy milk"; completed := Some true |}.

(** The identifier of a request names a stored task. *)
Definition resolves (id : string) (c : Collection) : Prop :=
  ∃ oid t, castObjectId id = Some oid ∧ c !! oid = Some t.

(** The body of an update can be read and both of its fields cast. *)
Definition update_castable (body : option json) : bool :=
  match body with
  | None => false
  | Some JNull => false
  | Some v =>
      negb (is_fail (castString (get_prop v "text")))
      && negb (is_fail (castBoolean (get_prop v "completed")))
  end.

(** A request that is not an update writing an explicit null. *)
Definition no_null_update (r : Request) : Prop :=
  match r with
  | Update _ body =>
      body_prop body "text" ≠ Some JNull
      ∧ body_prop body "completed" ≠ Some JNull
  | _ => True
  end.

(** The 404 response of the update and delete handlers. *)
Definition not_found : Response :=
  {| res_status := 404; res_body := ErrorBody "Todo not found" |}.

(** The task a response carries, if it carries one. *)
Definition task_of (o : result Response) : option Task :=
  match o with
  | Ok {| res_body := TaskEnvelope t _ _ |} => Some t
  | _ => None
  end.

(** The collections reached when no update writes an explicit null. *)
Inductive reachable_clean : Collection → Prop :=
| clean_empty : reachable_clean ∅
| clean_step env r c :
    reachable_clean c → no_null_update r →
    reachable_clean (snd (handle env r c)).

(** A collection holding an active and a completed task. *)
Definition c_two : Collection :=
  <[6%N := {| text := Some "walk dog"; completed := Some true |}]> c_milk.

(** ** The writing handlers of the variant kept after src/models/Task.ts

    The earlier router answers with the bare document, or with a message
    object after a delete, where the mounted router answers with an
    envelope; its texts say "task" for "todo". *)
Module LegacyWrites.

(** The bodies the variant gives [res.json]. *)
Inductive Body : Type :=
| BareTask (task : Task)
| Message (message : string)
| Error (error : string).

Record Reply : Type := mkReply {
  reply_status : Z;
  reply_body : Body
}.

Definition status_json (code : Z) (b : Body) : M Reply :=
  ret {| reply_status := code; reply_body := b |}.

(** [router.post("/")], lines 42-51 of the variant *)
Definition router_post (env : Env) (body : option json) : M Reply :=
  try_catch
    (let! text := destructure body "text" in
     let task := new_Task env text in
     let! _ := save env task in
     status_json 201 (BareTask (toJSON task)))
    (λ _, status_json 500 (Error "Failed to create task")).

(** [router.put("/:id")], lines 167-184 of the variant *)
Definition router_put (env : Env) (id : string) (body : option json) : M Reply :=
  try_catch
    (let! text := destructure body "text" in
     let! completed := destructure body "completed" in
     let! task := findByIdAndUpdate env id
                    {| upd_text := text; upd_completed := completed |} in
     match task with
     | None => status_json 404 (Error "Task not found")
     | Some t => status_json 200 (BareTask t)
     end)
    (λ _, status_json 500 (Error "Failed to update task")).

(** [router.delete("/:id")], lines 203-215 of the variant *)
Definition router_delete (env : Env) (id : string) : M Reply :=
  try_catch
    (let! task := findByIdAndDelete env id in
     match task with
     | None => status_json 404 (Error "Task not found")
     | Some _ => status_json 200 (Message "Task deleted successfully")
     end)
    (λ _, status_json 500 (Error "Failed to delete task")).

(** The status and the task of a reply. *)
Definition status_of (o : result Reply) : option Z :=
  match o with
  | Ok r => Some (reply_status r)
  | Throw _ => None
  end.

Definition task_of (o : result Reply) : option Task :=
  match o with
  | Ok {| reply_body := BareTask t |} => Some t
  | _ => None
  end.

End LegacyWrites.

(** * Lemmas on the store *)

Section Store.
Implicit Types (c : Collection) (env : Env) (q : FilterQuery).

Lemma elem_of_matching q c oid t :
  (oid, t) ∈ map_to_list (filter (λ kv, matches q (snd kv) = true) c)
  ↔ c !! oid = Some t ∧ matches q t = true.
Proof. by rewrite elem_of_map_to_list, map_lookup_filter_Some. Qed.

Lemma find_up env q c :
  fault env = None →
  find env q c
  = (Ok (map_to_list (filter (λ kv, matches q (snd kv) = true) c)), c).
Proof. intros Hup. unfold find. by rewrite Hup. Qed.

Lemma find_down env q c cause :
  fault env = Some cause → find env q c = (Throw (StoreFailure cause), c).
Proof. intros Hdown. unfold find. by rewrite Hdown. Qed.

Lemma matches_completed b t :
  matches (FCompleted b) t = true ↔ completed t = Some b.
Proof.
  unfold matches. destruct (completed t) as [b'|]; [|by split].
  rewrite Bool.eqb_true_iff. split; congruence.
Qed.

Lemma list_filter_active : list_filter (Some (JStr "active")) = FCompleted false.
Proof. reflexivity. Qed.

Lemma list_filter_completed : list_filter (Some (JStr "completed")) = FCompleted true.
Proof. reflexivity. Qed.

Lemma strict_eq_str_true v s : strict_eq_str v s = true ↔ v = Some (JStr s).
Proof.
  destruct v as [[]|]; simpl; try (split; [discriminate|congruence]).
  rewrite String.eqb_eq. split; congruence.
Qed.

Lemma list_filter_other status :
  status ≠ Some (JStr "active") → status ≠ Some (JStr "completed") →
  list_filter status = FEmpty.
Proof.
  intros Ha Hc. unfold list_filter.
  destruct (strict_eq_str status "active") eqn:E1.
  { apply strict_eq_str_true in E1. contradiction. }
  destruct (strict_eq_str status "completed") eqn:E2.
  { apply strict_eq_str_true in E2. contradiction. }
  reflexivity.
Qed.

Lemma router_get_up env status c :
  fault env = None →
  router_get env status c
  = (Ok {| res_status := 200;
           res_body := TasksEnvelope
             (map_to_list (filter (λ kv, matches (list_filter status) (snd kv) = true) c))
             200 "success" |}, c).
Proof.
  intros Hup. unfold router_get, try_catch, get_try, bind.
  by rewrite (find_up _ _ _ Hup).
Qed.

Lemma router_get_listed env status c :
fault env = None →
router_get env status c
= (Ok {| res_status := 200;
         res_body := TasksEnvelope (listed env status c) 200 "success" |}, c).
Proof. intros Hup. unfold listed. by rewrite (router_get_up _ _ _ Hup). Qed.

Lemma listed_up env status c oid t :
  fault env = None →
  (oid, t) ∈ listed env status c
  ↔ c !! oid = Some t ∧ matches (list_filter status) t = true.
Proof.
  intros Hup. unfold listed. rewrite (router_get_up _ _ _ Hup). simpl.
  apply elem_of_matching.
Qed.

End Store.

(** * List: [GET /] *)

(** C1. With the store up, [GET /?status=...] answers 200 with exactly the
    stored tasks its three-way filter selects: those with
    [completed = false] for ["active"], those with [completed = true] for
    ["completed"], every stored task for any other value or none.  The
    last set contains the two filtered sets, and is their union when every
    stored task is active or completed. *)
Theorem list_three_way (env : Env) (status : option json) (c : Collection) :
  fault env = None →
  router_get env status c
  = (Ok {| res_status := 200;
           res_body := TasksEnvelope (listed env status c) 200 "success" |}, c)
  ∧ NoDup (listed env status c)
  ∧ (status = Some (JStr "active") →
     ∀ oid t, (oid, t) ∈ listed env status c
              ↔ c !! oid = Some t ∧ completed t = Some false)
  ∧ (status = Some (JStr "completed") →
     ∀ oid t, (oid, t) ∈ listed env status c
              ↔ c !! oid = Some t ∧ completed t = Some true)
  ∧ (status ≠ Some (JStr "active") → status ≠ Some (JStr "completed") →
     (∀ oid t, (oid, t) ∈ listed env status c ↔ c !! oid = Some t)
     ∧ (∀ x, x ∈ listed env (Some (JStr "active")) c
             ∨ x ∈ listed env (Some (JStr "completed")) c
             → x ∈ listed env status c)
     ∧ (all_boolean c →
        ∀ x, x ∈ listed env status c
             ↔ x ∈ listed env (Some (JStr "active")) c
               ∨ x ∈ listed env (Some (JStr "completed")) c)).
Proof.
  intros Hup. split; [|split; [|split; [|split]]].
  - by apply router_get_listed.
  - unfold listed. rewrite (router_get_up _ _ _ Hup). simpl.
    apply NoDup_map_to_list.
  - intros -> oid t. rewrite (listed_up _ _ _ _ _ Hup), list_filter_active.
    by rewrite matches_completed.
  - intros -> oid t. rewrite (listed_up _ _ _ _ _ Hup), list_filter_completed.
    by rewrite matches_completed.
  - intros Ha Hc.
    assert (Hall : ∀ oid t, (oid, t) ∈ listed env status c ↔ c !! oid = Some t).
    { intros oid t. rewrite (listed_up _ _ _ _ _ Hup), (list_filter_other _ Ha Hc).
      simpl. tauto. }
    split; [exact Hall|]. split.
    + intros [oid t]. rewrite Hall, !(listed_up _ _ _ _ _ Hup). tauto.
    + intros Hbool [oid t].
      rewrite Hall, !(listed_up _ _ _ _ _ Hup),
        list_filter_active, list_filter_completed, !matches_completed.
      split; [|tauto].
      intros Hin. pose proof (Hbool _ _ Hin) as Hc'. simpl in Hc'.
      destruct (completed t) as [[]|]; [right|left|]; tauto || congruence.
Qed.

(** The theorem at a store holding one active task, for a request without
    [status]: the store is up, the status is neither of the two words and
    the one stored task is active. *)
Lemma list_three_way_witness :
  fault (env_up 6%N) = None
  ∧ None ≠ Some (JStr "active")
  ∧ None ≠ Some (JStr "completed")
  ∧ all_boolean c_milk
  ∧ router_get (env_up 6%N) None c_milk
    = (Ok {| res_status := 200;
             res_body := TasksEnvelope (listed (env_up 6%N) None c_milk) 200 "success" |},
       c_milk)
  ∧ (∀ x, x ∈ listed (env_up 6%N) None c_milk
          ↔ x ∈ listed (env_up 6%N) (Some (JStr "active")) c_milk
            ∨ x ∈ listed (env_up 6%N) (Some (JStr "completed")) c_milk).
Proof.
  assert (Hup : fault (env_up 6%N) = None) by reflexivity.
  assert (Ha : @None json ≠ Some (JStr "active")) by discriminate.
  assert (Hc : @None json ≠ Some (JStr "completed")) by discriminate.
  assert (Hb : all_boolean c_milk).
  { apply map_Forall_singleton. simpl. discriminate. }
  destruct (list_three_way (env_up 6%N) None c_milk Hup)
    as (Hresp & _ & _ & _ & Hother).
  destruct (Hother Ha Hc) as (_ & _ & Hunion).
  repeat split; try assumption; apply (Hunion Hb).
Defined.

(** [c_milk] is what [POST / {text: "buy milk"}] leaves on an empty
    store. *)
Lemma c_milk_reachable : reachable c_milk.
Proof.
  change c_milk
    with (snd (handle (env_up 5%N)
                 (Create (Some (JObj [("text", JStr "buy milk")]))) ∅)).
  apply reach_step, reach_empty.
Qed.

(** [c_null] is what [PUT /:id {completed: null}] then leaves. *)
Lemma c_null_reachable : reachable c_null.
Proof.
  replace c_null
    with (snd (handle (env_up 6%N)
                 (Update id5 (Some (JObj [("completed", JNull)]))) c_milk))
    by (vm_compute; reflexivity).
  apply reach_step, c_milk_reachable.
Qed.

(** C1, counterexample to the claim as worded: in a reachable state
    holding a task whose [completed] is null, [GET /] without status
    returns that task while neither [GET /?status=active] nor
    [GET /?status=completed] does, so the full list is not the union of
    the two filtered sets. *)
Lemma list_not_union_of_filtered :
  reachable c_null
  ∧ fault (env_up 6%N) = None
  ∧ (5%N, milk_null) ∈ listed (env_up 6%N) None c_null
  ∧ ¬ (5%N, milk_null) ∈ listed (env_up 6%N) (Some (JStr "active")) c_null
  ∧ ¬ (5%N, milk_null) ∈ listed (env_up 6%N) (Some (JStr "completed")) c_null.
Proof.
  split; [apply c_null_reachable|]. split; [reflexivity|].
  rewrite !listed_up by reflexivity.
  unfold c_null. rewrite lookup_singleton_eq.
  repeat split; simpl; intros [_ H]; discriminate.
Qed.

(** * Filter: [GET /filter] *)

(** The two handlers build the same filter, so their [try] blocks are the
    same computation. *)
Lemma get_filter_try_eq (env : Env) (status : option json) :
  get_filter_try env status = get_try env status.
Proof. reflexivity. Qed.

(** C3. For every collection, status value and environment,
    [GET /filter?status=...] and [GET /?status=...] answer with the same
    status code and the same task set and leave the same collection; with
    the store up the two responses are equal altogether. *)
Theorem filter_same_as_list (env : Env) (status : option json) (c : Collection) :
  status_of (fst (router_get_filter env status c))
  = status_of (fst (router_get env status c))
  ∧ result_set (fst (router_get_filter env status c))
    = result_set (fst (router_get env status c))
  ∧ snd (router_get_filter env status c) = snd (router_get env status c)
  ∧ (fault env = None →
     router_get_filter env status c = router_get env status c).
Proof.
  unfold router_get_filter, router_get, try_catch.
  rewrite get_filter_try_eq.
  unfold get_try, bind, find.
  destruct (fault env); simpl; repeat split; intros; congruence.
Qed.

(** The theorem at a store holding one active task, asked for the active
    ones. *)
Lemma filter_same_as_list_witness :
  fault (env_up 6%N) = None
  ∧ router_get_filter (env_up 6%N) (Some (JStr "active")) c_milk
    = router_get (env_up 6%N) (Some (JStr "active")) c_milk.
Proof.
  split; [reflexivity|].
  apply (filter_same_as_list (env_up 6%N) (Some (JStr "active")) c_milk).
  reflexivity.
Defined.

(** The earlier variant of [GET /] does not read [status]: asked for the
    completed tasks of a store holding one active task, it returns that
    task, while the variant's [GET /filter] returns none. *)
Lemma legacy_list_ignores_status :
  result_set (fst (Legacy.router_get (env_up 6%N) (Some (JStr "completed")) c_milk))
  = Some [(5%N, milk)]
  ∧ result_set (fst (Legacy.router_get_filter (env_up 6%N) (Some (JStr "completed")) c_milk))
    = Some [].
Proof. split; vm_compute; reflexivity. Qed.

(** The 500 bodies of the two handlers carry different texts. *)
Lemma filter_list_error_texts (status : option json) (c : Collection) :
  router_get env_down status c
  = (Ok {| res_status := 500; res_body := ErrorBody "Failed to fetch todos" |}, c)
  ∧ router_get_filter env_down status c
    = (Ok {| res_status := 500; res_body := ErrorBody "Failed to filter todos" |}, c).
Proof. split; reflexivity. Qed.

(** * Create: [POST /] *)

Section Create.
Implicit Types (c : Collection) (env : Env) (body : option json).

(** The handler reads the body through its [text] property only. *)
Lemma destructure_text body c :
  destructure body "text" c = (Ok (body_prop body "text"), c)
  ∨ (∃ e, destructure body "text" c = (Throw e, c)
          ∧ body_prop body "text" = None).
Proof.
  destruct body as [v|]; [destruct v|]; simpl;
    (by left) || (right; eexists; by split).
Qed.

(** All the outcomes of [POST /]. *)
Lemma router_post_cases env body c :
  router_post env body c
  = if checkRequired (castString (body_prop body "text")) then
      match fault env with
      | Some _ =>
          (Ok {| res_status := 500; res_body := ErrorBody "Failed to create todo" |}, c)
      | None =>
          match c !! generated_id env with
          | Some _ =>
              (Ok {| res_status := 500; res_body := ErrorBody "Failed to create todo" |}, c)
          | None =>
              let task := toJSON (new_Task env (body_prop body "text")) in
              (Ok {| res_status := 201;
                     res_body := TaskEnvelope task 201 "Todo Created" |},
               <[generated_id env := snd task]> c)
          end
      end
    else (Ok {| res_status := 500; res_body := ErrorBody "Failed to create todo" |}, c).
Proof.
  unfold router_post, try_catch, post_try, bind.
  destruct (destructure_text body c) as [-> | (e & -> & ->)]; [|reflexivity].
  unfold save, new_Task; simpl.
  destruct (checkRequired _); [|reflexivity].
  destruct (fault env); [reflexivity|].
  destruct (c !! generated_id env); reflexivity.
Qed.

End Create.

(** C2. For a body whose [text] is a non-empty string, with the store up
    and the generated id not yet in the collection, [POST /] answers 201
    with the new task ([completed = false]) and stores it, and a following
    [GET /] answers 200 with a task set that contains it. *)
Theorem post_then_list (env env' : Env) (body : option json) (t : string)
    (c : Collection) :
  body_prop body "text" = Some (JStr t) →
  t ≠ "" →
  fault env = None →
  c !! generated_id env = None →
  fault env' = None →
  let task : Task := (generated_id env, {| text := Some t; completed := Some false |}) in
  let c' : Collection := <[generated_id env := snd task]> c in
  router_post env body c
  = (Ok {| res_status := 201; res_body := TaskEnvelope task 201 "Todo Created" |}, c')
  ∧ router_get env' None c'
    = (Ok {| res_status := 200;
             res_body := TasksEnvelope (listed env' None c') 200 "success" |}, c')
  ∧ task ∈ listed env' None c'.
Proof.
  intros Htext Hne Hup Hfresh Hup' task c'. split; [|split].
  - rewrite router_post_cases, Htext. simpl.
    destruct t as [|a t']; [done|]. simpl.
    by rewrite Hup, Hfresh.
  - by apply router_get_listed.
  - unfold task. rewrite (listed_up _ _ _ _ _ Hup'). split; [|reflexivity].
    unfold c'. apply lookup_insert_eq.
Qed.

(** The theorem for [POST / {text: "buy milk"}] on the empty store. *)
Lemma post_then_list_witness :
  router_post (env_up 5%N) (Some (JObj [("text", JStr "buy milk")])) ∅
  = (Ok {| res_status := 201;
           res_body := TaskEnvelope (5%N, milk) 201 "Todo Created" |}, <[5%N := milk]> ∅)
  ∧ (5%N, milk) ∈ listed (env_up 6%N) None (<[5%N := milk]> ∅).
Proof.
  destruct (post_then_list (env_up 5%N) (env_up 6%N)
              (Some (JObj [("text", JStr "buy milk")])) "buy milk" ∅)
    as (Hpost & _ & Hin);
    [reflexivity | discriminate | reflexivity | apply lookup_empty | reflexivity |].
  split; [exact Hpost | exact Hin].
Defined.

(** C7. A [POST /] whose body has no [text] (or that has no body at all)
    answers 500, not 201, and leaves the collection as it was, whatever
    the environment. *)
Theorem post_without_text (env : Env) (body : option json) (c : Collection) :
  body_prop body "text" = None →
  router_post env body c
  = (Ok {| res_status := 500; res_body := ErrorBody "Failed to create todo" |}, c)
  ∧ status_of (fst (router_post env body c)) ≠ Some 201
  ∧ snd (router_post env body c) = c.
Proof.
  intros Hnone.
  assert (H : router_post env body c
              = (Ok {| res_status := 500;
                       res_body := ErrorBody "Failed to create todo" |}, c)).
  { rewrite router_post_cases, Hnone. reflexivity. }
  rewrite H. simpl. repeat split. discriminate.
Qed.

(** The theorem for [POST / {completed: true}], store up. *)
Lemma post_without_text_witness :
  body_prop (Some (JObj [("completed", JBool true)])) "text" = None
  ∧ router_post (env_up 5%N) (Some (JObj [("completed", JBool true)])) c_milk
    = (Ok {| res_status := 500; res_body := ErrorBody "Failed to create todo" |}, c_milk).
Proof.
  split; [reflexivity|].
  apply (post_without_text (env_up 5%N) (Some (JObj [("completed", JBool true)])) c_milk).
  reflexivity.
Defined.



(** * Update: [PUT /:id] *)

Section Update.
Implicit Types (c : Collection) (env : Env) (body : option json) (id : string).

(** With a body that can be read and cast, a well-formed id and the store
    up, the handler answers by what the id finds. *)
Lemma router_put_up env id oid body c :
  castObjectId id = Some oid →
  update_castable body = true →
  fault env = None →
  router_put env id body c
  = match c !! oid with
    | None => (Ok not_found, c)
    | Some t =>
        let t' := apply_update (castString (body_prop body "text"))
                    (castBoolean (body_prop body "completed")) t in
        (Ok {| res_status := 200; res_body := TaskEnvelope (oid, t') 200 "Todo Updated" |},
         <[oid := t']> c)
    end.
Proof.
  intros Hid Hcast Hup.
  unfold router_put, try_catch, put_try, bind, findByIdAndUpdate.
  destruct body as [v|]; [|discriminate].
  assert (Hd : ∀ k, destructure (Some v) k c = (Ok (get_prop v k), c)).
  { intros k. destruct v; try reflexivity. discriminate. }
  rewrite !Hd. simpl. rewrite Hid.
  assert (Hv : negb (is_fail (castString (get_prop v "text")))
               && negb (is_fail (castBoolean (get_prop v "completed"))) = true).
  { destruct v; try exact Hcast. discriminate. }
  apply andb_true_iff in Hv as [Ht Hc].
  apply negb_true_iff in Ht, Hc. rewrite Ht, Hc, Hup.
  destruct (c !! oid); reflexivity.
Qed.

(** A malformed id, a body that cannot be read or cast, or a store that
    is down: each makes the handler answer its fixed 500. *)
Lemma router_put_500 env id body c :
  castObjectId id = None ∨ update_castable body = false ∨ is_Some (fault env) →
  router_put env id body c = (Ok (generic_500 (Update id body)), c).
Proof.
  intros H.
  unfold router_put, try_catch, put_try, bind, findByIdAndUpdate.
  destruct body as [v|]; [|reflexivity].
  destruct v; simpl; try reflexivity;
    (destruct (castObjectId id) as [oid|]; [|reflexivity]);
    repeat match goal with
           | |- context [is_fail ?x] =>
               let E := fresh "E" in destruct (is_fail x) eqn:E; try reflexivity
           end;
    (destruct (fault env) as [cause|] eqn:Hf; [reflexivity|]);
    exfalso; destruct H as [H|[H|[cause H]]]; simpl in H;
      try discriminate; rewrite ?E, ?E0 in H; discriminate.
Qed.

(** Whatever the request and the environment, the handler answers, and
    the collection it leaves is the one it found or that one with the
    task named by the id updated. *)
Lemma router_put_cases env id body c :
  (∃ resp, router_put env id body c = (Ok resp, c)
           ∧ (resp = not_found ∨ resp = generic_500 (Update id body)))
  ∨ (∃ oid t,
       castObjectId id = Some oid ∧ c !! oid = Some t
       ∧ update_castable body = true
       ∧ let t' := apply_update (castString (body_prop body "text"))
                     (castBoolean (body_prop body "completed")) t in
         router_put env id body c
         = (Ok {| res_status := 200;
                  res_body := TaskEnvelope (oid, t') 200 "Todo Updated" |},
            <[oid := t']> c)).
Proof.
  destruct (castObjectId id) as [oid|] eqn:Hid.
  2:{ left. eexists. split; [|by right].
      unfold router_put, try_catch, put_try, bind, findByIdAndUpdate.
      rewrite Hid. destruct body as [[]|]; reflexivity. }
  destruct (update_castable body) eqn:Hcast.
  2:{ left. eexists. split; [|by right].
      unfold router_put, try_catch, put_try, bind, findByIdAndUpdate.
      rewrite Hid. destruct body as [v|]; [|reflexivity].
      destruct v; try reflexivity; simpl in *; try discriminate;
        apply andb_false_iff in Hcast as [H|H];
        apply negb_false_iff in H; rewrite H; try reflexivity;
        match goal with |- context [is_fail ?x] => destruct (is_fail x) end;
        reflexivity. }
  destruct (fault env) as [cause|] eqn:Hup.
  { left. eexists. split; [|by right].
    unfold router_put, try_catch, put_try, bind, findByIdAndUpdate.
    rewrite Hid, Hup. destruct body as [v|]; [|reflexivity].
    destruct v; try reflexivity; simpl in *;
      repeat match goal with |- context [is_fail ?x] => destruct (is_fail x) end;
      reflexivity. }
  pose proof (router_put_up env id oid body c Hid Hcast Hup) as Hput.
  destruct (c !! oid) as [t|] eqn:Hlook.
  - right. exists oid, t. repeat split; assumption.
  - left. eexists. split; [exact Hput|by left].
Qed.

End Update.

(** C4. [PUT /:id {completed: true}] on a stored task, with the store up,
    answers 200 with the task, its [completed] now true and its [text] and
    [_id] as before; the collection differs at that task only, and a
    following [GET /] shows the updated task and every other task
    unchanged. *)
Theorem put_completed_true (env env' : Env) (id : string) (oid : ObjectId)
    (t : ITask) (c : Collection) :
  castObjectId id = Some oid →
  c !! oid = Some t →
  fault env = None →
  fault env' = None →
  let t' : ITask := {| text := text t; completed := Some true |} in
  let c' : Collection := <[oid := t']> c in
  router_put env id (Some (JObj [("completed", JBool true)])) c
  = (Ok {| res_status := 200; res_body := TaskEnvelope (oid, t') 200 "Todo Updated" |}, c')
  ∧ (∀ oid', oid' ≠ oid → c' !! oid' = c !! oid')
  ∧ (∀ u, (oid, u) ∈ listed env' None c' ↔ u = t')
  ∧ (∀ oid' u, oid' ≠ oid →
       (oid', u) ∈ listed env' None c' ↔ (oid', u) ∈ listed env' None c).
Proof.
  intros Hid Hlook Hup Hup' t' c'. split; [|split; [|split]].
  - rewrite (router_put_up env id oid
               (Some (JObj [("completed", JBool true)])) c Hid eq_refl Hup), Hlook.
    reflexivity.
  - intros oid' Hne. unfold c'. by rewrite lookup_insert_ne.
  - intros u. rewrite (listed_up _ _ _ _ _ Hup'). unfold c'.
    rewrite lookup_insert_eq. simpl. split; [intros [[= <-] _]; done|].
    intros ->. done.
  - intros oid' u Hne. rewrite !(listed_up _ _ _ _ _ Hup'). unfold c'.
    by rewrite lookup_insert_ne.
Qed.

(** The theorem for the task "buy milk" of [c_milk]. *)
Lemma put_completed_true_witness :
  router_put (env_up 6%N) id5 (Some (JObj [("completed", JBool true)])) c_milk
  = (Ok {| res_status := 200;
           res_body := TaskEnvelope (5%N, milk_done) 200 "Todo Updated" |},
     <[5%N := milk_done]> c_milk).
Proof.
  apply (put_completed_true (env_up 6%N) (env_up 7%N) id5 5%N milk c_milk);
    reflexivity.
Defined.

(** C5, counterexample to the claim as worded: with the store up, a
    [PUT] whose id is not 24 hex digits names no stored task and is
    answered 500, not 404; so is a [PUT] with a well-formed unknown id
    whose [text] is an array. *)
Lemma put_malformed_id_is_500 :
  ¬ resolves "abc" c_milk
  ∧ fault (env_up 6%N) = None
  ∧ router_put (env_up 6%N) "abc" (Some (JObj [("completed", JBool true)])) c_milk
    = (Ok {| res_status := 500; res_body := ErrorBody "Failed to update todo" |}, c_milk)
  ∧ ¬ resolves id6 c_milk
  ∧ router_put (env_up 6%N) id6 (Some (JObj [("text", JArr [])])) c_milk
    = (Ok {| res_status := 500; res_body := ErrorBody "Failed to update todo" |}, c_milk).
Proof.
  split; [|split; [|split; [|split]]]; try reflexivity.
  - intros (oid & t & Hid & _). discriminate.
  - intros (oid & t & Hid & Hlook). vm_compute in Hid.
    injection Hid as <-. discriminate.
Qed.

(** C5 as amended. A [PUT] whose id names no stored task leaves the
    collection as it was and answers 404 or 500, whatever the body and the
    environment; it answers 404 "Todo not found" when the id is 24 hex
    digits, the body can be read and cast, and the store is up; it answers
    500 when the id is not 24 hex digits or the body cannot be read or
    cast. *)
Theorem put_unknown_id (env : Env) (id : string) (body : option json)
    (c : Collection) :
  ¬ resolves id c →
  (∃ resp, router_put env id body c = (Ok resp, c)
           ∧ (resp = not_found ∨ resp = generic_500 (Update id body)))
  ∧ (is_Some (castObjectId id) → update_castable body = true → fault env = None →
     router_put env id body c = (Ok not_found, c))
  ∧ (castObjectId id = None ∨ update_castable body = false →
     router_put env id body c = (Ok (generic_500 (Update id body)), c)).
Proof.
  intros Hno. split; [|split].
  - destruct (router_put_cases env id body c) as [H | (oid & t & Hid & Hlook & _)];
      [exact H|].
    exfalso. apply Hno. by exists oid, t.
  - intros [oid Hid] Hcast Hup.
    rewrite (router_put_up env id oid body c Hid Hcast Hup).
    destruct (c !! oid) as [t|] eqn:Hlook; [|reflexivity].
    exfalso. apply Hno. by exists oid, t.
  - intros Hbad. apply router_put_500. tauto.
Qed.

(** The theorem for two ids that are not in [c_milk]: the well-formed one
    is answered 404, the malformed one 500. *)
Lemma put_unknown_id_witness :
  ¬ resolves id6 c_milk
  ∧ router_put (env_up 6%N) id6 (Some (JObj [("completed", JBool true)])) c_milk
    = (Ok not_found, c_milk)
  ∧ ¬ resolves "abc" c_milk
  ∧ router_put (env_up 6%N) "abc" (Some (JObj [("completed", JBool true)])) c_milk
    = (Ok (generic_500 (Update "abc" (Some (JObj [("completed", JBool true)])))),
       c_milk).
Proof.
  assert (Hno : ¬ resolves id6 c_milk).
  { intros (oid & t & Hid & Hlook). vm_compute in Hid.
    injection Hid as <-. discriminate. }
  assert (Hno' : ¬ resolves "abc" c_milk).
  { intros (oid & t & Hid & _). discriminate. }
  split; [exact Hno|]. split.
  { apply (put_unknown_id (env_up 6%N) id6
             (Some (JObj [("completed", JBool true)])) c_milk Hno);
      [by exists 6%N | reflexivity | reflexivity]. }
  split; [exact Hno'|].
  apply (put_unknown_id (env_up 6%N) "abc"
           (Some (JObj [("completed", JBool true)])) c_milk Hno').
  left. reflexivity.
Defined.

(** * Delete: [DELETE /:id] *)

(** All the outcomes of [DELETE /:id]. *)
Lemma router_delete_cases (env : Env) (id : string) (c : Collection) :
  router_delete env id c
  = match castObjectId id with
    | None => (Ok (generic_500 (Delete id)), c)
    | Some oid =>
        match fault env with
        | Some _ => (Ok (generic_500 (Delete id)), c)
        | None =>
            match c !! oid with
            | None => (Ok not_found, c)
            | Some t =>
                (Ok {| res_status := 200;
                       res_body := TaskEnvelope (oid, t) 200 "Todo deleted successfully" |},
                 delete oid c)
            end
        end
    end.
Proof.
  unfold router_delete, try_catch, delete_try, bind, findByIdAndDelete.
  destruct (castObjectId id) as [oid|]; [|reflexivity].
  destruct (fault env); [reflexivity|].
  destruct (c !! oid); reflexivity.
Qed.

(** C6. [DELETE /:id] on a stored task, with the store up, answers 200
    with the task and removes it and nothing else: a following [GET /]
    lists no task of that id and lists every other task as before, and a
    second [DELETE] of the same id answers 404. *)
Theorem delete_then_list (env env' env'' : Env) (id : string) (oid : ObjectId)
    (t : ITask) (c : Collection) :
  castObjectId id = Some oid →
  c !! oid = Some t →
  fault env = None →
  fault env' = None →
  fault env'' = None →
  let c' : Collection := delete oid c in
  router_delete env id c
  = (Ok {| res_status := 200;
           res_body := TaskEnvelope (oid, t) 200 "Todo deleted successfully" |}, c')
  ∧ (∀ u, ¬ (oid, u) ∈ listed env' None c')
  ∧ (∀ oid' u, oid' ≠ oid →
       (oid', u) ∈ listed env' None c' ↔ (oid', u) ∈ listed env' None c)
  ∧ (∀ oid', oid' ≠ oid → c' !! oid' = c !! oid')
  ∧ router_delete env'' id c' = (Ok not_found, c').
Proof.
  intros Hid Hlook Hup Hup' Hup'' c'. split; [|split; [|split; [|split]]].
  - by rewrite router_delete_cases, Hid, Hup, Hlook.
  - intros u. rewrite (listed_up _ _ _ _ _ Hup'). unfold c'.
    rewrite lookup_delete_eq. intros [? _]. discriminate.
  - intros oid' u Hne. rewrite !(listed_up _ _ _ _ _ Hup'). unfold c'.
    by rewrite lookup_delete_ne.
  - intros oid' Hne. unfold c'. by rewrite lookup_delete_ne.
  - rewrite router_delete_cases, Hid, Hup''. unfold c'.
    by rewrite lookup_delete_eq.
Qed.

(** The theorem for the task "buy milk" of [c_milk]: the delete answers
    200 and leaves the empty store, where the second delete answers 404. *)
Lemma delete_then_list_witness :
  router_delete (env_up 6%N) id5 c_milk
  = (Ok {| res_status := 200;
           res_body := TaskEnvelope (5%N, milk) 200 "Todo deleted successfully" |},
     delete 5%N c_milk)
  ∧ router_delete (env_up 8%N) id5 (delete 5%N c_milk)
    = (Ok not_found, delete 5%N c_milk).
Proof.
  destruct (delete_then_list (env_up 6%N) (env_up 7%N) (env_up 8%N) id5 5%N milk c_milk)
    as (Hdel & _ & _ & _ & Hagain); try reflexivity.
  split; [exact Hdel | exact Hagain].
Defined.

(** * Failures *)

Lemma handle_try_catch (env : Env) (r : Request) :
  handle env r
  = try_catch (try_block env r) (λ _, status_json 500 (ErrorBody (failure_message r))).
Proof. destruct r; reflexivity. Qed.

(** While the store is down, every [try] block throws and leaves the
    collection as it was. *)
Lemma try_block_down (env : Env) (r : Request) (c : Collection) (cause : string) :
  fault env = Some cause → ∃ e, try_block env r c = (Throw e, c).
Proof.
  intros Hdown. destruct r as [body|status|status|id body|id]; simpl.
  - unfold post_try, bind, save.
    destruct (destructure_text body c) as [-> | (e & -> & _)]; [|by eexists].
    destruct (checkRequired _); rewrite ?Hdown; by eexists.
  - unfold get_try, bind. rewrite (find_down _ _ _ _ Hdown). by eexists.
  - unfold get_filter_try, bind. rewrite (find_down _ _ _ _ Hdown). by eexists.
  - unfold put_try, bind, findByIdAndUpdate.
    destruct body as [v|]; [|by eexists].
    destruct v; simpl; try (by eexists);
      destruct (castObjectId id); try (by eexists);
      repeat match goal with |- context [is_fail ?x] => destruct (is_fail x) end;
      rewrite ?Hdown; by eexists.
  - unfold delete_try, bind, findByIdAndDelete.
    destruct (castObjectId id); rewrite ?Hdown; by eexists.
Qed.

(** C9. Every handler answers every request: nothing it calls throws past
    it.  Whatever its [try] block throws, and so whenever the store call
    fails, for whatever cause, the answer is 500 with the fixed text of the
    handler, which carries nothing of the error; a store that is down also
    leaves the collection as it was. *)
Theorem failures_are_caught (env : Env) (r : Request) (c : Collection) :
  (∃ resp c', handle env r c = (Ok resp, c'))
  ∧ (∀ e c', try_block env r c = (Throw e, c') →
       handle env r c = (Ok (generic_500 r), c'))
  ∧ (∀ cause, fault env = Some cause →
       handle env r c = (Ok (generic_500 r), c)).
Proof.
  rewrite handle_try_catch. unfold try_catch. split; [|split].
  - destruct (try_block env r c) as [[resp|e] c']; by do 2 eexists.
  - intros e c' ->. reflexivity.
  - intros cause Hdown.
    destruct (try_block_down env r c cause Hdown) as [e ->]. reflexivity.
Qed.

(** The theorem for a [POST / {text: "buy milk"}] received while the store
    is down: the [try] block throws the store's failure and the answer is
    the fixed 500. *)
Lemma failures_are_caught_witness :
  fault env_down = Some "connect ECONNREFUSED 127.0.0.1:27017"
  ∧ try_block env_down (Create (Some (JObj [("text", JStr "buy milk")]))) c_milk
    = (Throw (StoreFailure "connect ECONNREFUSED 127.0.0.1:27017"), c_milk)
  ∧ handle env_down (Create (Some (JObj [("text", JStr "buy milk")]))) c_milk
    = (Ok {| res_status := 500; res_body := ErrorBody "Failed to create todo" |}, c_milk)
  ∧ snd (handle env_down (Create (Some (JObj [("text", JStr "buy milk")]))) c_milk)
    = c_milk.
Proof.
  destruct (failures_are_caught env_down
              (Create (Some (JObj [("text", JStr "buy milk")]))) c_milk)
    as (_ & Hthrown & Hdown).
  split; [reflexivity|]. split; [reflexivity|]. split.
  - exact (Hthrown (StoreFailure "connect ECONNREFUSED 127.0.0.1:27017") c_milk eq_refl).
  - rewrite (Hdown "connect ECONNREFUSED 127.0.0.1:27017" eq_refl). reflexivity.
Defined.

(** * The data-model invariant *)

Section Invariant.
Implicit Types (c : Collection) (env : Env).

Lemma castString_null v : castString v = Null → v = Some JNull.
Proof.
  destruct v as [[| | | | |ms]|]; simpl; try discriminate; [done|].
  destruct (member "_id" ms) as [[| | |s| |]|]; try discriminate.
  destruct (nonempty s); discriminate.
Qed.

Lemma castBoolean_null v : castBoolean v = Null → v = Some JNull.
Proof.
  destruct v as [[| |r|s| |]|]; simpl; try discriminate; [done| |].
  - repeat match goal with |- context [if ?b then _ else _] => destruct b end;
      discriminate.
  - repeat match goal with |- context [if ?b then _ else _] => destruct b end;
      discriminate.
Qed.

Lemma set_path_some {A} (new : cast A) (old : option A) :
  new ≠ Null → old ≠ None → set_path new old ≠ None.
Proof. destruct new; simpl; congruence. Qed.

(** Create, List, Filter and Delete keep [text] and [completed] of every
    stored task non-null, and so does an Update whose body writes no
    explicit null. *)
Lemma collection_ok_preserved env (r : Request) c :
  collection_ok c → no_null_update r → collection_ok (snd (handle env r c)).
Proof.
  intros Hok Hnn. destruct r as [body|status|status|id body|id]; simpl.
  - rewrite router_post_cases.
    destruct (castString (body_prop body "text")) as [| |s|] eqn:Hcast; simpl;
      try exact Hok.
    destruct (nonempty s); [|exact Hok].
    destruct (fault env); [exact Hok|].
    destruct (c !! generated_id env); [exact Hok|]. simpl.
    apply map_Forall_insert_2; [|exact Hok].
    split; simpl; [by rewrite Hcast | discriminate].
  - unfold router_get, try_catch, get_try, bind, find.
    destruct (fault env); exact Hok.
  - unfold router_get_filter, try_catch, get_filter_try, bind, find.
    destruct (fault env); exact Hok.
  - destruct Hnn as [Ht Hc].
    destruct (router_put_cases env id body c)
      as [(resp & -> & _) | (oid & t & _ & Hlook & _ & ->)]; [exact Hok|].
    simpl. apply map_Forall_insert_2; [|exact Hok].
    destruct (Hok _ _ Hlook) as [Htext Hcompleted].
    split; simpl; apply set_path_some; try assumption.
    + intros H. by apply castString_null in H.
    + intros H. by apply castBoolean_null in H.
  - rewrite router_delete_cases.
    destruct (castObjectId id) as [oid|]; [|exact Hok].
    destruct (fault env); [exact Hok|].
    destruct (c !! oid); [|exact Hok].
    simpl. by apply map_Forall_delete.
Qed.

End Invariant.

(** C8, the code at the failing input. [c_milk] is reachable and satisfies
    the invariant; [PUT /:id {text: null}] on its task answers 200 and
    stores the task with a null [text], so the collection it leaves is
    reachable and breaks the invariant. *)
Theorem put_null_text_breaks_invariant :
  reachable c_milk
  ∧ collection_ok c_milk
  ∧ router_put (env_up 6%N) id5 (Some (JObj [("text", JNull)])) c_milk
    = (Ok {| res_status := 200;
             res_body := TaskEnvelope (5%N, no_text) 200 "Todo Updated" |},
       c_no_text)
  ∧ reachable c_no_text
  ∧ ¬ collection_ok c_no_text.
Proof.
  assert (Hput : router_put (env_up 6%N) id5 (Some (JObj [("text", JNull)])) c_milk
                 = (Ok {| res_status := 200;
                          res_body := TaskEnvelope (5%N, no_text) 200 "Todo Updated" |},
                    c_no_text)).
  { vm_compute. reflexivity. }
  split; [apply c_milk_reachable|]. split.
  { apply map_Forall_singleton. split; discriminate. }
  split; [exact Hput|]. split.
  - replace c_no_text
      with (snd (handle (env_up 6%N) (Update id5 (Some (JObj [("text", JNull)]))) c_milk))
      by (simpl; by rewrite Hput).
    apply reach_step, c_milk_reachable.
  - intros Hok. unfold collection_ok, c_no_text in Hok.
    apply map_Forall_singleton in Hok as [Htext _]. by apply Htext.
Qed.

(** * The scenario of the specification, run on the empty store *)

Example scenario_buy_milk :
  let c0 : Collection := ∅ in
  let '(r1, c1) := router_post (env_up 5%N) (Some (JObj [("text", JStr "buy milk")])) c0 in
  let '(r2, c2) := router_put (env_up 6%N) id5 (Some (JObj [("completed", JBool true)])) c1 in
  let '(r3, c3) := router_get (env_up 7%N) (Some (JStr "completed")) c2 in
  let '(r4, c4) := router_delete (env_up 8%N) id5 c3 in
  let '(r5, c5) := router_get (env_up 9%N) (Some (JStr "completed")) c4 in
  r1 = Ok {| res_status := 201; res_body := TaskEnvelope (5%N, milk) 201 "Todo Created" |}
  ∧ r2 = Ok {| res_status := 200; res_body := TaskEnvelope (5%N, milk_done) 200 "Todo Updated" |}
  ∧ r3 = Ok {| res_status := 200; res_body := TasksEnvelope [(5%N, milk_done)] 200 "success" |}
  ∧ r4 = Ok {| res_status := 200;
               res_body := TaskEnvelope (5%N, milk_done) 200 "Todo deleted successfully" |}
  ∧ r5 = Ok {| res_status := 200; res_body := TasksEnvelope [] 200 "success" |}
  ∧ c5 = ∅.
Proof. vm_compute. repeat split. Qed.

(** * More on Update *)

Section UpdateMore.
Implicit Types (c : Collection) (env : Env) (body : option json) (id : string).

(** The handler as one expression of its inputs. *)
Lemma router_put_eq env id body c :
  router_put env id body c
  = match castObjectId id with
    | None => (Ok (generic_500 (Update id body)), c)
    | Some oid =>
        if update_castable body && bool_decide (fault env = None) then
          match c !! oid with
          | None => (Ok not_found, c)
          | Some t =>
              let t' := apply_update (castString (body_prop body "text"))
                          (castBoolean (body_prop body "completed")) t in
              (Ok {| res_status := 200;
                     res_body := TaskEnvelope (oid, t') 200 "Todo Updated" |},
               <[oid := t']> c)
          end
        else (Ok (generic_500 (Update id body)), c)
    end.
Proof.
  destruct (castObjectId id) as [oid|] eqn:Hid;
    [|apply router_put_500; by left].
  destruct (update_castable body) eqn:Hcast; simpl;
    [|apply router_put_500; right; by left].
  case_bool_decide as Hup.
  - by apply router_put_up.
  - apply router_put_500. right; right.
    destruct (fault env); [by eexists | done].
Qed.

(** What an update does to the collection: it alters the task the id
    names, if there is one, and nothing else. *)
Lemma router_put_state env id body c :
  snd (router_put env id body c)
  = match castObjectId id with
    | None => c
    | Some oid =>
        if update_castable body && bool_decide (fault env = None) then
          alter (apply_update (castString (body_prop body "text"))
                   (castBoolean (body_prop body "completed"))) oid c
        else c
    end.
Proof.
  rewrite router_put_eq.
  destruct (castObjectId id) as [oid|]; [|reflexivity].
  destruct (update_castable body && bool_decide (fault env = None));
    [|reflexivity].
  destruct (c !! oid) as [t|] eqn:Hlook; simpl.
  - apply map_eq. intros j. destruct (decide (oid = j)) as [<-|Hne].
    + by rewrite lookup_insert_eq, lookup_alter_eq, Hlook.
    + by rewrite lookup_insert_ne, lookup_alter_ne.
  - apply map_eq. intros j. destruct (decide (oid = j)) as [<-|Hne].
    + by rewrite lookup_alter_eq, Hlook.
    + by rewrite lookup_alter_ne.
Qed.

Lemma set_path_idem {A} (new : cast A) (old : option A) :
  set_path new (set_path new old) = set_path new old.
Proof. by destruct new. Qed.

Lemma apply_update_idem ct cc (t : ITask) :
  apply_update ct cc (apply_update ct cc t) = apply_update ct cc t.
Proof. unfold apply_update. simpl. by rewrite !set_path_idem. Qed.

End UpdateMore.

(** X1. [PUT /:id] merges: on a stored task, with the store up, a body
    whose [text] is a string or absent and whose [completed] is a boolean
    or absent answers 200 with the task in which exactly the fields given
    are replaced (an empty string included); every other task stays, and a
    body giving neither field leaves the whole collection as it was. *)
Theorem put_merges_fields (env : Env) (id : string) (oid : ObjectId)
    (t : ITask) (c : Collection) (v : json)
    (new_text : option string) (new_completed : option bool) :
  castObjectId id = Some oid →
  c !! oid = Some t →
  fault env = None →
  v ≠ JNull →
  get_prop v "text" = JStr <$> new_text →
  get_prop v "completed" = JBool <$> new_completed →
  let t' : ITask :=
    {| text := match new_text with Some s => Some s | None => text t end;
       completed := match new_completed with Some b => Some b | None => completed t end |} in
  router_put env id (Some v) c
  = (Ok {| res_status := 200; res_body := TaskEnvelope (oid, t') 200 "Todo Updated" |},
     <[oid := t']> c)
  ∧ (∀ oid', oid' ≠ oid → <[oid := t']> c !! oid' = c !! oid')
  ∧ (new_text = None → new_completed = None → <[oid := t']> c = c).
Proof.
  intros Hid Hlook Hup Hv Ht Hc t'.
  assert (Hcast : update_castable (Some v) = true).
  { unfold update_castable. rewrite Ht, Hc.
    destruct v; try done; by destruct new_text, new_completed. }
  split; [|split].
  - rewrite (router_put_up env id oid (Some v) c Hid Hcast Hup), Hlook.
    simpl. rewrite Ht, Hc.
    replace (apply_update (castString (JStr <$> new_text))
               (castBoolean (JBool <$> new_completed)) t) with t';
      [reflexivity|].
    unfold t', apply_update. by destruct new_text, new_completed.
  - intros oid' Hne. by rewrite lookup_insert_ne.
  - intros -> ->. apply insert_id. rewrite Hlook. by destruct t.
Qed.

(** The theorem for [PUT /:id {text: ""}] on the task of [c_milk]: the
    empty text is stored. *)
Lemma put_merges_fields_witness :
  router_put (env_up 6%N) id5 (Some (JObj [("text", JStr "")])) c_milk
  = (Ok {| res_status := 200;
           res_body := TaskEnvelope
             (5%N, {| text := Some ""; completed := Some false |}) 200 "Todo Updated" |},
     <[5%N := {| text := Some ""; completed := Some false |}]> c_milk).
Proof.
  apply (put_merges_fields (env_up 6%N) id5 5%N milk c_milk
           (JObj [("text", JStr "")]) (Some "") None);
    reflexivity || discriminate.
Defined.

(** X2. [PUT /:id] is idempotent: with the store up both times, sending
    the same update again gives the same answer and leaves the collection
    the first one left. *)
Theorem put_twice (env env' : Env) (id : string) (body : option json)
    (c : Collection) :
  fault env = None →
  fault env' = None →
  router_put env' id body (snd (router_put env id body c))
  = (fst (router_put env id body c), snd (router_put env id body c)).
Proof.
  intros Hup Hup'. rewrite !router_put_eq, Hup, Hup'.
  destruct (castObjectId id) as [oid|]; [|reflexivity].
  destruct (update_castable body); simpl; [|reflexivity].
  destruct (c !! oid) as [t|] eqn:Hlook; simpl.
  - rewrite lookup_insert_eq, apply_update_idem, insert_insert_eq. reflexivity.
  - by rewrite Hlook.
Qed.

(** The theorem for [PUT /:id {completed: true}] sent twice to the task of
    [c_milk]. *)
Lemma put_twice_witness :
  router_put (env_up 7%N) id5 (Some (JObj [("completed", JBool true)]))
    (snd (router_put (env_up 6%N) id5 (Some (JObj [("completed", JBool true)])) c_milk))
  = (Ok {| res_status := 200;
           res_body := TaskEnvelope (5%N, milk_done) 200 "Todo Updated" |},
     <[5%N := milk_done]> c_milk).
Proof.
  rewrite (put_twice (env_up 6%N) (env_up 7%N) id5
             (Some (JObj [("completed", JBool true)])) c_milk eq_refl eq_refl).
  reflexivity.
Defined.

(** X3. [PUT /:id] never creates and never removes a task: whatever the
    request and the environment, the stored ids are the same before and
    after. *)
Theorem put_keeps_ids (env : Env) (id : string) (body : option json)
    (c : Collection) :
  dom (snd (router_put env id body c)) = dom c.
Proof.
  rewrite router_put_state.
  destruct (castObjectId id) as [oid|]; [|reflexivity].
  destruct (update_castable body && bool_decide (fault env = None));
    [|reflexivity].
  apply dom_alter_L.
Qed.

(** X4. Updates of different tasks do not interfere: when the two ids do
    not name the same ObjectId, the answer to the second update is the one
    it would get without the first, and the collection after both is the
    same in either order. *)
Theorem puts_commute (env1 env2 : Env) (id1 id2 : string)
    (body1 body2 : option json) (c : Collection) :
  (∀ oid, castObjectId id1 = Some oid → castObjectId id2 ≠ Some oid) →
  fst (router_put env2 id2 body2 (snd (router_put env1 id1 body1 c)))
  = fst (router_put env2 id2 body2 c)
  ∧ snd (router_put env2 id2 body2 (snd (router_put env1 id1 body1 c)))
    = snd (router_put env1 id1 body1 (snd (router_put env2 id2 body2 c))).
Proof.
  intros Hne. split.
  - rewrite (router_put_eq env2), (router_put_eq env2 id2 body2 c).
    destruct (castObjectId id2) as [o2|] eqn:H2; [|reflexivity].
    destruct (update_castable body2 && bool_decide (fault env2 = None));
      [|reflexivity].
    rewrite router_put_state.
    destruct (castObjectId id1) as [o1|] eqn:H1; [|by destruct (c !! o2)].
    assert (o1 ≠ o2) by (intros ->; by apply (Hne o2)).
    destruct (update_castable body1 && bool_decide (fault env1 = None));
      [|by destruct (c !! o2)].
    rewrite lookup_alter_ne by done. by destruct (c !! o2).
  - rewrite !router_put_state.
    destruct (castObjectId id1) as [o1|] eqn:H1; [|reflexivity].
    destruct (castObjectId id2) as [o2|] eqn:H2; [|reflexivity].
    assert (o1 ≠ o2) by (intros ->; by apply (Hne o2)).
    destruct (update_castable body1 && bool_decide (fault env1 = None));
      destruct (update_castable body2 && bool_decide (fault env2 = None));
      try reflexivity.
    symmetry. by apply alter_alter_ne.
Qed.

(** The theorem for updates of the two tasks of [c_two]. *)
Lemma puts_commute_witness :
  snd (router_put (env_up 8%N) id6 (Some (JObj [("text", JStr "walk cat")]))
         (snd (router_put (env_up 7%N) id5 (Some (JObj [("completed", JBool true)])) c_two)))
  = snd (router_put (env_up 7%N) id5 (Some (JObj [("completed", JBool true)]))
           (snd (router_put (env_up 8%N) id6 (Some (JObj [("text", JStr "walk cat")])) c_two))).
Proof.
  apply (puts_commute (env_up 7%N) (env_up 8%N) id5 id6
           (Some (JObj [("completed", JBool true)]))
           (Some (JObj [("text", JStr "walk cat")])) c_two).
  intros oid H. vm_compute in H. injection H as <-. vm_compute. discriminate.
Defined.

(** * More on Delete *)

(** X5. A [DELETE] whose id names no stored task leaves the collection as
    it was and answers 404 or 500, whatever the environment; it answers
    404 "Todo not found" when the id is 24 hex digits and the store is up,
    and 500 when the id is malformed. *)
Theorem delete_unknown_id (env : Env) (id : string) (c : Collection) :
  ¬ resolves id c →
  (∃ resp, router_delete env id c = (Ok resp, c)
           ∧ (resp = not_found ∨ resp = generic_500 (Delete id)))
  ∧ (is_Some (castObjectId id) → fault env = None →
     router_delete env id c = (Ok not_found, c))
  ∧ (castObjectId id = None →
     router_delete env id c = (Ok (generic_500 (Delete id)), c)).
Proof.
  intros Hno. rewrite router_delete_cases.
  destruct (castObjectId id) as [oid|] eqn:Hid.
  - assert (Hlook : c !! oid = None).
    { destruct (c !! oid) as [t|] eqn:Hlook; [|done].
      exfalso. apply Hno. by exists oid, t. }
    rewrite Hlook. split; [|split].
    + destruct (fault env);
        [eexists; split; [reflexivity|by right]
        |eexists; split; [reflexivity|by left]].
    + intros _ ->. reflexivity.
    + discriminate.
  - split; [|split].
    + eexists. split; [reflexivity|by right].
    + by intros [? ?].
    + reflexivity.
Qed.

(** The theorem for a well-formed id that is not in [c_milk]. *)
Lemma delete_unknown_id_witness :
  ¬ resolves id6 c_milk
  ∧ router_delete (env_up 7%N) id6 c_milk = (Ok not_found, c_milk).
Proof.
  assert (Hno : ¬ resolves id6 c_milk).
  { intros (oid & t & Hid & Hlook). vm_compute in Hid.
    injection Hid as <-. discriminate. }
  split; [exact Hno|].
  destruct (delete_unknown_id (env_up 7%N) id6 c_milk Hno) as (_ & H404 & _).
  apply H404; [by exists 6%N | reflexivity].
Defined.

(** X6. [DELETE /:id] only ever removes the task its id names: every
    other task is stored after it as before, no task is added or changed,
    and the collection shrinks by at most that one task. *)
Theorem delete_frame (env : Env) (id : string) (c : Collection) :
  (∀ oid t, snd (router_delete env id c) !! oid = Some t → c !! oid = Some t)
  ∧ (∀ oid, castObjectId id ≠ Some oid →
       snd (router_delete env id c) !! oid = c !! oid)
  ∧ (size c ≤ S (size (snd (router_delete env id c))))%nat.
Proof.
  assert (Hsame : (∀ oid t, c !! oid = Some t → c !! oid = Some t)
                  ∧ (∀ oid, castObjectId id ≠ Some oid → c !! oid = c !! oid)
                  ∧ (size c ≤ S (size c))%nat)
    by (repeat split; [done | lia]).
  rewrite router_delete_cases.
  destruct (castObjectId id) as [o|]; [|exact Hsame].
  destruct (fault env); [exact Hsame|].
  destruct (c !! o) as [t|] eqn:Hlook; [|exact Hsame].
  simpl. split; [|split].
  - intros oid u Hdel. apply lookup_delete_Some in Hdel. tauto.
  - intros oid Hne. apply lookup_delete_ne. congruence.
  - rewrite (map_size_delete_Some o c) by (by eexists). lia.
Qed.

(** The theorem at [c_two]: deleting the first task keeps the second. *)
Lemma delete_frame_witness :
  snd (router_delete (env_up 7%N) id5 c_two) !! 6%N = c_two !! 6%N.
Proof.
  apply (delete_frame (env_up 7%N) id5 c_two). vm_compute. discriminate.
Defined.

(** * More on List and Filter *)

(** X7. [GET /] and [GET /filter] only read: in every environment they
    leave the collection as it was and answer 200 or 500. *)
Theorem reads_only_read (env : Env) (status : option json) (c : Collection) :
  snd (router_get env status c) = c
  ∧ snd (router_get_filter env status c) = c
  ∧ (status_of (fst (router_get env status c)) = Some 200
     ∨ status_of (fst (router_get env status c)) = Some 500)
  ∧ (status_of (fst (router_get_filter env status c)) = Some 200
     ∨ status_of (fst (router_get_filter env status c)) = Some 500).
Proof.
  unfold router_get, router_get_filter, try_catch, get_try, get_filter_try,
    bind, find.
  destruct (fault env); simpl; repeat split; (by left) || (by right).
Qed.

(** X8. The status test is strict: a [status] that is not a string (the
    array or object the query parser makes of [?status=a&status=b] or
    [?status[k]=v]) or a string other than the two words, in any letter
    case but the exact one, gets the answer of a request without
    [status]. *)
Theorem status_other_is_no_status (env : Env) (status : option json)
    (c : Collection) :
  status ≠ Some (JStr "active") →
  status ≠ Some (JStr "completed") →
  router_get env status c = router_get env None c
  ∧ router_get_filter env status c = router_get_filter env None c.
Proof.
  intros Ha Hc.
  unfold router_get, router_get_filter, get_try, get_filter_try, filter_filter.
  fold (list_filter status). fold (list_filter None).
  by rewrite (list_filter_other status Ha Hc).
Qed.

(** The theorem for [?status=active&status=active], which the query parser
    delivers as an array. *)
Lemma status_other_is_no_status_witness :
  router_get (env_up 7%N) (Some (JArr [JStr "active"; JStr "active"])) c_two
  = router_get (env_up 7%N) None c_two.
Proof.
  apply (status_other_is_no_status (env_up 7%N)
           (Some (JArr [JStr "active"; JStr "active"])) c_two); discriminate.
Defined.

Lemma listed_eq (env : Env) (status : option json) (c : Collection) :
  fault env = None →
  listed env status c
  = map_to_list (filter (λ kv, matches (list_filter status) (snd kv) = true) c).
Proof. intros Hup. unfold listed. by rewrite (router_get_up _ _ _ Hup). Qed.

Lemma listed_down (env : Env) (status : option json) (c : Collection) cause :
  fault env = Some cause → listed env status c = [].
Proof.
  intros Hdown. unfold listed, router_get, try_catch, get_try, bind.
  by rewrite (find_down _ _ _ _ Hdown).
Qed.

(** X9. In every list answer each [_id] occurs once, no task is in both
    the active and the completed list, and the two lists together are no
    longer than the full list. *)
Theorem lists_are_disjoint (env : Env) (status : option json) (c : Collection) :
  NoDup (fst <$> listed env status c)
  ∧ (∀ x, x ∈ listed env (Some (JStr "active")) c →
          ¬ x ∈ listed env (Some (JStr "completed")) c)
  ∧ (length (listed env (Some (JStr "active")) c)
     + length (listed env (Some (JStr "completed")) c)
     ≤ length (listed env None c))%nat.
Proof.
  destruct (fault env) as [cause|] eqn:Hf.
  { rewrite !(listed_down _ _ _ _ Hf).
    repeat split; [constructor | by intros ? ?%elem_of_nil | done]. }
  split; [|split].
  - rewrite (listed_eq _ _ _ Hf). apply NoDup_fst_map_to_list.
  - intros [oid t]. rewrite !(listed_up _ _ _ _ _ Hf), list_filter_active,
      list_filter_completed, !matches_completed.
    intros [_ H1] [_ H2]. congruence.
  - rewrite !(listed_eq _ _ _ Hf), list_filter_active, list_filter_completed.
    unfold Task. rewrite !length_map_to_list.
    assert (Hdisj : filter (λ kv : ObjectId * ITask, matches (FCompleted false) kv.2 = true) c
                    ##ₘ filter (λ kv : ObjectId * ITask, matches (FCompleted true) kv.2 = true) c).
    { apply map_disjoint_spec. intros i x y.
      rewrite !map_lookup_filter_Some, !matches_completed. simpl.
      intros [H1 H1'] [H2 H2']. congruence. }
    rewrite <- (map_size_disj_union _ _ Hdisj).
    apply map_subseteq_size.
    apply map_subseteq_spec. intros i x.
    rewrite lookup_union_Some by exact Hdisj.
    rewrite !map_lookup_filter_Some. simpl. tauto.
Qed.

(** * More on Create *)

(** X10. [POST /] never touches a stored task: whatever the body and the
    environment, even when the generated id is already taken, every task
    stored before is stored unchanged after, only the generated id can be
    new, and the collection grows by at most one task. *)
Theorem post_keeps_existing (env : Env) (body : option json) (c : Collection) :
  (∀ oid t, c !! oid = Some t → snd (router_post env body c) !! oid = Some t)
  ∧ (∀ oid, oid ≠ generated_id env →
       snd (router_post env body c) !! oid = c !! oid)
  ∧ (size (snd (router_post env body c)) ≤ S (size c))%nat.
Proof.
  assert (Hsame : (∀ oid t, c !! oid = Some t → c !! oid = Some t)
                  ∧ (∀ oid, oid ≠ generated_id env → c !! oid = c !! oid)
                  ∧ (size c ≤ S (size c))%nat)
    by (repeat split; [done | lia]).
  rewrite router_post_cases.
  destruct (checkRequired _); [|exact Hsame].
  destruct (fault env); [exact Hsame|].
  destruct (c !! generated_id env) eqn:Hfresh; [exact Hsame|].
  simpl. split; [|split].
  - intros oid t Hlook. rewrite lookup_insert_ne; [done|]. congruence.
  - intros oid Hne. by rewrite lookup_insert_ne.
  - by rewrite map_size_insert_None.
Qed.

(** X11. [POST /] stores no task without a text: a [text] that is null,
    the empty string or an array is answered 500 in every environment and
    the collection stays as it was. *)
Theorem post_blank_text (env : Env) (body : option json) (c : Collection) :
  body_prop body "text" = Some JNull
  ∨ body_prop body "text" = Some (JStr "")
  ∨ (∃ items, body_prop body "text" = Some (JArr items)) →
  router_post env body c
  = (Ok {| res_status := 500; res_body := ErrorBody "Failed to create todo" |}, c).
Proof.
  intros [H | [H | [items H]]]; rewrite router_post_cases, H; reflexivity.
Qed.

(** The theorem for [POST / {text: ""}], store up. *)
Lemma post_blank_text_witness :
  router_post (env_up 7%N) (Some (JObj [("text", JStr "")])) c_milk
  = (Ok {| res_status := 500; res_body := ErrorBody "Failed to create todo" |}, c_milk).
Proof.
  apply (post_blank_text (env_up 7%N) (Some (JObj [("text", JStr "")])) c_milk).
  right; left. reflexivity.
Defined.

(** X12. [POST /] then [DELETE] of the id created is a round trip: when
    the create answers 201 and the delete is served with the store up, the
    delete answers with the task the create answered with and the
    collection is again the one before the create. *)
Theorem post_then_delete (env env' : Env) (body : option json) (id : string)
    (c : Collection) :
  status_of (fst (router_post env body c)) = Some 201 →
  castObjectId id = Some (generated_id env) →
  fault env' = None →
  snd (router_delete env' id (snd (router_post env body c))) = c
  ∧ status_of (fst (router_delete env' id (snd (router_post env body c)))) = Some 200
  ∧ task_of (fst (router_delete env' id (snd (router_post env body c))))
    = task_of (fst (router_post env body c)).
Proof.
  intros H201 Hid Hup'. rewrite router_delete_cases, Hid, Hup'.
  revert H201. rewrite router_post_cases.
  destruct (checkRequired _); [|discriminate].
  destruct (fault env); [discriminate|].
  destruct (c !! generated_id env) eqn:Hfresh; [discriminate|].
  intros _. simpl. rewrite lookup_insert_eq. simpl.
  repeat split. by apply delete_insert_id.
Qed.

(** The theorem for [POST / {text: "buy milk"}] on the empty store and
    [DELETE] of the id it generated. *)
Lemma post_then_delete_witness :
  snd (router_delete (env_up 6%N) id5
         (snd (router_post (env_up 5%N) (Some (JObj [("text", JStr "buy milk")])) ∅)))
  = ∅.
Proof.
  apply (post_then_delete (env_up 5%N) (env_up 6%N)
           (Some (JObj [("text", JStr "buy milk")])) id5 ∅); reflexivity.
Defined.

(** * All handlers *)

(** The outcomes of every handler, side by side: the fixed 500 or the 404
    with the collection untouched, or a success envelope. *)
Lemma handle_cases (env : Env) (r : Request) (c : Collection) :
  handle env r c = (Ok (generic_500 r), c)
  ∨ ((∃ id body, r = Update id body) ∨ (∃ id, r = Delete id))
    ∧ handle env r c = (Ok not_found, c)
  ∨ (∃ t msg c', handle env r c
                 = (Ok {| res_status := 200; res_body := TaskEnvelope t 200 msg |}, c')
                 ∧ ((∃ id body, r = Update id body) ∨ (∃ id, r = Delete id)))
  ∨ (∃ t c', handle env r c
             = (Ok {| res_status := 201; res_body := TaskEnvelope t 201 "Todo Created" |}, c')
             ∧ ∃ body, r = Create body)
  ∨ (∃ ts, handle env r c
           = (Ok {| res_status := 200; res_body := TasksEnvelope ts 200 "success" |}, c)
           ∧ ((∃ status, r = List status) ∨ (∃ status, r = Filter status))).
Proof.
  destruct r as [body|status|status|id body|id]; simpl.
  - rewrite router_post_cases.
    destruct (checkRequired _); [|by left].
    destruct (fault env); [by left|].
    destruct (c !! generated_id env); [by left|].
    do 3 right. left. do 2 eexists. split; [reflexivity|by eexists].
  - unfold router_get, try_catch, get_try, bind, find.
    destruct (fault env); [by left|].
    do 4 right. eexists. split; [reflexivity|]. left. by eexists.
  - unfold router_get_filter, try_catch, get_filter_try, bind, find.
    destruct (fault env); [by left|].
    do 4 right. eexists. split; [reflexivity|]. right. by eexists.
  - rewrite router_put_eq.
    destruct (castObjectId id) as [oid|]; [|by left].
    destruct (update_castable body && bool_decide (fault env = None)); [|by left].
    destruct (c !! oid).
    + do 2 right. left. do 3 eexists. split; [reflexivity|]. left. by do 2 eexists.
    + right; left. split; [|reflexivity]. left. by do 2 eexists.
  - rewrite router_delete_cases.
    destruct (castObjectId id) as [oid|]; [|by left].
    destruct (fault env); [by left|].
    destruct (c !! oid).
    + do 2 right. left. do 3 eexists. split; [reflexivity|]. right. by eexists.
    + right; left. split; [|reflexivity]. right. by eexists.
Qed.

(** X13. Status codes: [POST /] answers 201 or 500, [GET /] and
    [GET /filter] answer 200 or 500, [PUT /:id] and [DELETE /:id] answer
    200, 404 or 500; the [status] field inside an envelope repeats the
    HTTP status; and the body is an error object exactly when the status
    is 404 or 500. *)
Theorem status_codes (env : Env) (r : Request) (c : Collection) :
  ∃ resp c', handle env r c = (Ok resp, c')
    ∧ match r with
      | Create _ => res_status resp = 201 ∨ res_status resp = 500
      | List _ | Filter _ => res_status resp = 200 ∨ res_status resp = 500
      | Update _ _ | Delete _ =>
          res_status resp = 200 ∨ res_status resp = 404 ∨ res_status resp = 500
      end
    ∧ match res_body resp with
      | TaskEnvelope _ st _ | TasksEnvelope _ st _ =>
          st = res_status resp ∧ (st = 200 ∨ st = 201)
      | ErrorBody _ => res_status resp = 404 ∨ res_status resp = 500
      | BareTasks _ => False
      end.
Proof.
  destruct (handle_cases env r c)
    as [H | [[Hr H] | [(t & msg & c' & H & Hr) | [(t & c' & H & Hr) | (ts & H & Hr)]]]];
    rewrite H; do 2 eexists; (split; [reflexivity|]); simpl.
  - split; [destruct r; tauto | by right].
  - destruct Hr as [(? & ? & ->) | (? & ->)]; split; tauto.
  - destruct Hr as [(? & ? & ->) | (? & ->)]; split; tauto.
  - destruct Hr as (? & ->). split; tauto.
  - destruct Hr as [(? & ->) | (? & ->)]; split; tauto.
Qed.

(** X14. While the store answers, a request that is refused has changed
    nothing: a 404 (the id names no task) or a 500 (no body, a [text]
    that fails validation, a malformed id, a field that cannot be cast, a
    generated id already taken) leaves the collection as it was.  What a
    store that fails halfway leaves behind is outside this statement. *)
Theorem errors_leave_store (env : Env) (r : Request) (c : Collection)
    (resp : Response) (c' : Collection) :
  fault env = None →
  handle env r c = (Ok resp, c') →
  res_status resp = 404 ∨ res_status resp = 500 →
  c' = c.
Proof.
  intros _.
  destruct (handle_cases env r c)
    as [H | [[Hr H] | [(t & msg & c'' & H & Hr) | [(t & c'' & H & Hr) | (ts & H & Hr)]]]];
    rewrite H; intros [= <- <-]; simpl; try done; intros [?|?]; discriminate.
Qed.

(** The theorem for a [PUT] with a malformed id on [c_milk], store up. *)
Lemma errors_leave_store_witness :
  fault (env_up 7%N) = None
  ∧ snd (handle (env_up 7%N) (Update "abc" (Some (JObj [("completed", JBool true)]))) c_milk)
    = c_milk.
Proof.
  split; [reflexivity|].
  apply (errors_leave_store (env_up 7%N)
           (Update "abc" (Some (JObj [("completed", JBool true)]))) c_milk
           (generic_500 (Update "abc" (Some (JObj [("completed", JBool true)]))))).
  - reflexivity.
  - reflexivity.
  - right. reflexivity.
Defined.

(** X15. No request touches more than one document: after any request,
    in any environment, the collection differs from the one before at one
    id at most. *)
Theorem one_document_per_request (env : Env) (r : Request) (c : Collection) :
  ∃ oid, ∀ oid', oid' ≠ oid → snd (handle env r c) !! oid' = c !! oid'.
Proof.
  destruct r as [body|status|status|id body|id]; simpl.
  - exists (generated_id env). intros oid' Hne. rewrite router_post_cases.
    destruct (checkRequired _); [|done].
    destruct (fault env); [done|].
    destruct (c !! generated_id env); [done|].
    simpl. by rewrite lookup_insert_ne.
  - exists 0%N. intros oid' _.
    unfold router_get, try_catch, get_try, bind, find. by destruct (fault env).
  - exists 0%N. intros oid' _.
    unfold router_get_filter, try_catch, get_filter_try, bind, find.
    by destruct (fault env).
  - rewrite router_put_state.
    destruct (castObjectId id) as [oid|]; [|by exists 0%N].
    exists oid. intros oid' Hne.
    destruct (update_castable body && bool_decide (fault env = None)); [|done].
    by rewrite lookup_alter_ne.
  - rewrite router_delete_cases.
    destruct (castObjectId id) as [oid|]; [|by exists 0%N].
    exists oid. intros oid' Hne.
    destruct (fault env); [done|].
    destruct (c !! oid); [|done].
    simpl. by rewrite lookup_delete_ne.
Qed.

(** * The invariant without null updates *)

(** X16. As long as no update carries an explicit null for [text] or
    [completed], every collection the server reaches keeps the data-model
    invariant: each stored task has a non-null [text] and a non-null
    [completed]. *)
Theorem clean_states_ok (c : Collection) :
  reachable_clean c → collection_ok c.
Proof.
  induction 1 as [|env r c Hreach IH Hclean].
  - apply map_Forall_empty.
  - by apply collection_ok_preserved.
Qed.

(** The theorem for the collection after [POST / {text: "buy milk"}]. *)
Lemma clean_states_ok_witness : reachable_clean c_milk ∧ collection_ok c_milk.
Proof.
  assert (H : reachable_clean c_milk).
  { change c_milk
      with (snd (handle (env_up 5%N)
                   (Create (Some (JObj [("text", JStr "buy milk")]))) ∅)).
    apply clean_step; [apply clean_empty | exact I]. }
  split; [exact H | exact (clean_states_ok c_milk H)].
Defined.

(** * The earlier variant against the mounted router *)

(** X17. The variant's [POST /] and [PUT /:id] do to the collection what
    the mounted handlers do, answer with the same status code and carry
    the same task; only the envelope around the task and the error texts
    differ. *)
Theorem legacy_writes_agree (env : Env) (id : string) (body : option json)
    (c : Collection) :
  (snd (LegacyWrites.router_post env body c) = snd (router_post env body c)
   ∧ LegacyWrites.status_of (fst (LegacyWrites.router_post env body c))
     = status_of (fst (router_post env body c))
   ∧ LegacyWrites.task_of (fst (LegacyWrites.router_post env body c))
     = task_of (fst (router_post env body c)))
  ∧ (snd (LegacyWrites.router_put env id body c) = snd (router_put env id body c)
     ∧ LegacyWrites.status_of (fst (LegacyWrites.router_put env id body c))
       = status_of (fst (router_put env id body c))
     ∧ LegacyWrites.task_of (fst (LegacyWrites.router_put env id body c))
       = task_of (fst (router_put env id body c))).
Proof.
  split.
  - unfold LegacyWrites.router_post, router_post, post_try, try_catch, bind.
    destruct (destructure body "text" c) as [[text|e] c1]; [|done].
    destruct (save env (new_Task env text) c1) as [[[]|e] c2]; done.
  - unfold LegacyWrites.router_put, router_put, put_try, try_catch, bind.
    destruct (destructure body "text" c) as [[text|e] c1]; [|done].
    destruct (destructure body "completed" c1) as [[completed|e] c2]; [|done].
    destruct (findByIdAndUpdate env id _ c2) as [[[t|]|e] c3]; done.
Qed.

(** X18. The variant's [DELETE /:id] removes what the mounted handler
    removes and answers with the same status code, but its answer never
    carries the deleted task: on success it is the message object, where
    the mounted handler returns the task. *)
Theorem legacy_delete_agrees (env : Env) (id : string) (c : Collection) :
  snd (LegacyWrites.router_delete env id c) = snd (router_delete env id c)
  ∧ LegacyWrites.status_of (fst (LegacyWrites.router_delete env id c))
    = status_of (fst (router_delete env id c))
  ∧ LegacyWrites.task_of (fst (LegacyWrites.router_delete env id c)) = None
  ∧ (status_of (fst (router_delete env id c)) = Some 200 →
     fst (LegacyWrites.router_delete env id c)
     = Ok {| LegacyWrites.reply_status := 200;
             LegacyWrites.reply_body := LegacyWrites.Message "Task deleted successfully" |}
     ∧ ∃ oid t, task_of (fst (router_delete env id c)) = Some (oid, t)
                ∧ c !! oid = Some t).
Proof.
  unfold LegacyWrites.router_delete, router_delete, delete_try, try_catch, bind,
    findByIdAndDelete.
  destruct (castObjectId id) as [oid|]; [|by repeat split].
  destruct (fault env); [by repeat split|].
  destruct (c !! oid) as [t|] eqn:Hlook; [|by repeat split].
  simpl. repeat split. by exists oid, t.
Qed.

(** The theorem for the task of [c_milk]. *)
Lemma legacy_delete_agrees_witness :
  fst (LegacyWrites.router_delete (env_up 7%N) id5 c_milk)
  = Ok {| LegacyWrites.reply_status := 200;
          LegacyWrites.reply_body := LegacyWrites.Message "Task deleted successfully" |}.
Proof.
  apply (legacy_delete_agrees (env_up 7%N) id5 c_milk). reflexivity.
Defined.

(** X19. The variant's [GET /] answers every request, whatever its
    [status], with the task set the mounted [GET /] gives a request
    without [status]; the variant's [GET /filter] answers with the task
    set of the mounted [GET /filter]. *)
Theorem legacy_reads (env : Env) (status : option json) (c : Collection) :
  result_set (fst (Legacy.router_get env status c))
  = result_set (fst (router_get env None c))
  ∧ status_of (fst (Legacy.router_get env status c))
    = status_of (fst (router_get env None c))
  ∧ result_set (fst (Legacy.router_get_filter env status c))
    = result_set (fst (router_get_filter env status c))
  ∧ status_of (fst (Legacy.router_get_filter env status c))
    = status_of (fst (router_get_filter env status c))
  ∧ snd (Legacy.router_get env status c) = c
  ∧ snd (Legacy.router_get_filter env status c) = c.
Proof.
  unfold Legacy.router_get, Legacy.router_get_filter, router_get,
    router_get_filter, get_try, get_filter_try, try_catch, bind, find.
  destruct (fault env); simpl; by repeat split.
Qed.

(** * Sequences of requests *)

(** X20. There is no upsert: after a task is deleted, a [PUT] to its id
    with a body that can be read and cast, served with the store up,
    answers 404 and the task stays deleted. *)
Theorem delete_then_put (env env' : Env) (id : string) (oid : ObjectId)
    (t : ITask) (body : option json) (c : Collection) :
  castObjectId id = Some oid →
  c !! oid = Some t →
  fault env = None →
  fault env' = None →
  update_castable body = true →
  router_put env' id body (snd (router_delete env id c))
  = (Ok not_found, delete oid c)
  ∧ delete oid c !! oid = None.
Proof.
  intros Hid Hlook Hup Hup' Hcast.
  rewrite router_delete_cases, Hid, Hup, Hlook. simpl.
  rewrite (router_put_up env' id oid body _ Hid Hcast Hup').
  by rewrite lookup_delete_eq.
Qed.

(** The theorem for the task of [c_milk]. *)
Lemma delete_then_put_witness :
  router_put (env_up 8%N) id5 (Some (JObj [("completed", JBool true)]))
    (snd (router_delete (env_up 7%N) id5 c_milk))
  = (Ok not_found, delete 5%N c_milk).
Proof.
  apply (delete_then_put (env_up 7%N) (env_up 8%N) id5 5%N milk
           (Some (JObj [("completed", JBool true)])) c_milk); reflexivity.
Defined.

(** A create answered 201 has stored the task it answers with, under an
    id that was free. *)
Lemma router_post_201 (env : Env) (body : option json) (c : Collection) :
  status_of (fst (router_post env body c)) = Some 201 →
  ∃ s, router_post env body c
       = (Ok {| res_status := 201;
                res_body := TaskEnvelope
                  (generated_id env, {| text := Some s; completed := Some false |})
                  201 "Todo Created" |},
          <[generated_id env := {| text := Some s; completed := Some false |}]> c)
       ∧ c !! generated_id env = None.
Proof.
  rewrite router_post_cases.
  destruct (castString (body_prop body "text")) as [| |s|] eqn:Hcast; simpl;
    try discriminate.
  destruct (nonempty s); [|discriminate].
  destruct (fault env); [discriminate|].
  destruct (c !! generated_id env); [discriminate|].
  intros _. exists s. unfold toJSON, new_Task. simpl. by rewrite Hcast.
Qed.

Lemma router_get_filter_up (env : Env) (status : option json) (c : Collection) :
  fault env = None → router_get_filter env status c = router_get env status c.
Proof.
  intros Hup. unfold router_get_filter, router_get, try_catch.
  rewrite get_filter_try_eq. unfold get_try, bind.
  by rewrite (find_up _ _ _ Hup).
Qed.

(** X21. A task just created is active: after a [POST /] answered 201,
    the task it answered with is in the answer to [GET /?status=active]
    and to [GET /filter?status=active] and in none to [?status=completed],
    the store being up. *)
Theorem post_then_list_active (env env' : Env) (body : option json)
    (c : Collection) (task : Task) :
  status_of (fst (router_post env body c)) = Some 201 →
  task_of (fst (router_post env body c)) = Some task →
  fault env' = None →
  task ∈ listed env' (Some (JStr "active")) (snd (router_post env body c))
  ∧ ¬ task ∈ listed env' (Some (JStr "completed")) (snd (router_post env body c))
  ∧ result_set (fst (router_get_filter env' (Some (JStr "active"))
                       (snd (router_post env body c))))
    = Some (listed env' (Some (JStr "active")) (snd (router_post env body c))).
Proof.
  intros H201 Htask Hup'.
  destruct (router_post_201 env body c H201) as (s & Hpost & _).
  rewrite Hpost in Htask |- *. simpl in Htask |- *. injection Htask as <-.
  split; [|split].
  - rewrite (listed_up _ _ _ _ _ Hup'). by rewrite lookup_insert_eq.
  - rewrite (listed_up _ _ _ _ _ Hup'), lookup_insert_eq.
    intros [_ H]. discriminate.
  - by rewrite (router_get_filter_up _ _ _ Hup'), (router_get_listed _ _ _ Hup').
Qed.

(** The theorem for [POST / {text: "buy milk"}] on the empty store. *)
Lemma post_then_list_active_witness :
  (5%N, milk)
  ∈ listed (env_up 6%N) (Some (JStr "active"))
      (snd (router_post (env_up 5%N) (Some (JObj [("text", JStr "buy milk")])) ∅)).
Proof.
  apply (post_then_list_active (env_up 5%N) (env_up 6%N)
           (Some (JObj [("text", JStr "buy milk")])) ∅ (5%N, milk)); reflexivity.
Defined.

(** X22. Setting [completed] moves a task between the two lists: after a
    [PUT /:id {completed: b}] on a stored task, with the store up, the
    task is in the list for [b] ("completed" for true, "active" for false)
    and not in the other one. *)
Theorem put_moves_between_lists (env env' : Env) (id : string) (oid : ObjectId)
    (t : ITask) (b : bool) (c : Collection) :
  castObjectId id = Some oid →
  c !! oid = Some t →
  fault env = None →
  fault env' = None →
  let c' := snd (router_put env id (Some (JObj [("completed", JBool b)])) c) in
  let t' : ITask := {| text := text t; completed := Some b |} in
  let here := Some (JStr (if b then "completed" else "active")) in
  let there := Some (JStr (if b then "active" else "completed")) in
  (oid, t') ∈ listed env' here c'
  ∧ (∀ u, ¬ (oid, u) ∈ listed env' there c').
Proof.
  intros Hid Hlook Hup Hup' c' t' here there.
  assert (Hc' : c' = <[oid := t']> c).
  { unfold c'.
    rewrite (router_put_up env id oid (Some (JObj [("completed", JBool b)])) c
               Hid eq_refl Hup), Hlook. reflexivity. }
  rewrite Hc'. split.
  - rewrite (listed_up _ _ _ _ _ Hup'), lookup_insert_eq.
    split; [done|]. unfold here. by destruct b.
  - intros u. rewrite (listed_up _ _ _ _ _ Hup'), lookup_insert_eq.
    intros [[= <-] H]. unfold there in H. by destruct b.
Qed.

(** The theorem for completing the task of [c_milk]. *)
Lemma put_moves_between_lists_witness :
  (5%N, milk_done)
  ∈ listed (env_up 8%N) (Some (JStr "completed"))
      (snd (router_put (env_up 7%N) id5 (Some (JObj [("completed", JBool true)])) c_milk)).
Proof.
  apply (put_moves_between_lists (env_up 7%N) (env_up 8%N) id5 5%N milk true c_milk);
    reflexivity.
Defined.
